(** * AIUB CGPA calculator: grade lookup, GPA aggregation, standing labels

    A shallow embedding of the computational core of [frame/script.js]
    (the web calculator) and of [source/GradeCalculator.java] (the legacy
    Java backend), with the properties the specification states about them.

    Numbers.  A JavaScript [number] and a Java [double] are modelled by exact
    rationals ([Q]): every constant of the grading tables is a dyadic
    rational, and the comparisons the code performs are decided exactly.
    Rounding of binary64 arithmetic, NaN and the infinities are outside
    that model; statements about computed values say where they rely on
    it.  The arithmetic of the web calculator is embedded a second time on
    binary64 numbers (module [JS64]), where it can be run but not reasoned
    about in general.  A Java [int] is a [Z] with the 32-bit wrap-around
    written out. *)

From Stdlib Require Import ZArith QArith Qabs Qround Lqa Lia List String Bool.
From Stdlib Require Import DecimalString Permutation.
From Stdlib Require PrimFloat.
Import ListNotations.

Open Scope string_scope.
Open Scope Q_scope.

(** ** Comparisons of numbers, as booleans *)

Module Num.

Definition leb (x y : Q) : bool := Qle_bool x y.

Definition ltb (x y : Q) : bool := negb (Qle_bool y x).

Definition geb (x y : Q) : bool := leb y x.

Definition gtb (x y : Q) : bool := ltb y x.

End Num.

(** ** The web calculator, [frame/script.js] *)

Module JS.

(** An entry of [GRADING_SCALE]: [{ min, max, grade, point }]. *)
Record GradeBand : Type := mkBand {
  min : Q;
  max : Q;
  band_grade : string;
  band_point : Q
}.

(** The object [{ grade, point }] that [marksToGrade] returns. *)
Record GradeInfo : Type := mkGrade {
  grade : string;
  point : Q
}.

Definition GRADING_SCALE : list GradeBand :=
  [ mkBand 90 100 "A+" 4.0;
    mkBand 85 89 "A" 3.75;
    mkBand 80 84 "B+" 3.5;
    mkBand 75 79 "B" 3.25;
    mkBand 70 74 "C+" 3.0;
    mkBand 65 69 "C" 2.75;
    mkBand 60 64 "D+" 2.5;
    mkBand 50 59 "D" 2.25;
    mkBand 0 49 "F" 0.0 ].

(** The [for (let scale of GRADING_SCALE)] loop of [marksToGrade]: the first
    band with [marks >= scale.min && marks <= scale.max] is returned from
    inside the loop; [None] means the loop ran to its end. *)
Fixpoint scanBands (scale : list GradeBand) (marks : Q) : option GradeInfo :=
  match scale with
  | [] => None
  | b :: rest =>
      if Num.geb marks (min b) && Num.leb marks (max b)
      then Some (mkGrade (band_grade b) (band_point b))
      else scanBands rest marks
  end.

Definition marksToGrade (marks : Q) : GradeInfo :=
  if Num.ltb marks 0 || Num.gtb marks 100 then mkGrade "Invalid" 0.0
  else match scanBands GRADING_SCALE marks with
       | Some g => g
       | None => mkGrade "F" 0.0
       end.

(** A course object [{ title, credits, marks }]. *)
Record Course : Type := mkCourse {
  title : string;
  credits : Q;
  marks : Q
}.

(** The body of the [forEach] callback of [calculateSemesterGPA], on the
    pair of accumulators [(totalPoints, totalCredits)]. *)
Definition accumulate (acc : Q * Q) (course : Course) : Q * Q :=
  let gradeInfo := marksToGrade (marks course) in
  (fst acc + point gradeInfo * credits course, snd acc + credits course).

Definition calculateSemesterGPA (courses : list Course) : Q :=
  match courses with
  | [] => 0.0
  | _ =>
      let '(totalPoints, totalCredits) := fold_left accumulate courses (0.0, 0) in
      if Num.gtb totalCredits 0 then totalPoints / totalCredits else 0.0
  end.

Definition calculateCumulativeCGPA
    (prevCGPA prevCredits currentGPA currentCredits : Q) : Q :=
  let totalPoints := (prevCGPA * prevCredits) + (currentGPA * currentCredits) in
  let totalCredits := prevCredits + currentCredits in
  if Num.gtb totalCredits 0 then totalPoints / totalCredits else 0.0.

(** The object [{ text, class }] that [getAcademicStatus] returns. *)
Record StatusInfo : Type := mkStatus {
  text : string;
  class : string
}.

Definition getAcademicStatus (cgpa : Q) : StatusInfo :=
  if Num.geb cgpa 3.75 then mkStatus "Dean's List üèÜ" "status-excellent"
  else if Num.geb cgpa 3.5 then mkStatus "Excellent Standing ‚≠ê" "status-excellent"
  else if Num.geb cgpa 3.0 then mkStatus "Good Standing ‚úì" "status-good"
  else if Num.geb cgpa 2.5 then mkStatus "Satisfactory" "status-good"
  else if Num.geb cgpa 2.0 then mkStatus "Warning ‚ö†Ô∏è" "status-warning"
  else mkStatus "Academic Probation ‚ö†Ô∏è" "status-probation".

(** *** The form handler [calculateCGPA] and [getAllCourses]

    The document is replaced by the values read from it: what [parseFloat]
    and [parseInt] returned for each field ([None] for NaN) and the trimmed
    title of each course row. *)

Record CourseRow : Type := mkRow {
  row_title : string;
  row_credits : option Q;
  row_marks : option Q
}.

(** The [forEach] callback of [getAllCourses]: the row is pushed when the
    title is non-empty, neither number is NaN, [credits > 0] and
    [marks >= 0 && marks <= 100]. *)
Definition pushRow (courses : list Course) (row : CourseRow) : list Course :=
  match row_credits row, row_marks row with
  | Some credits, Some marks =>
      if negb (String.eqb (row_title row) "")
         && (Num.gtb credits 0 && Num.geb marks 0 && Num.leb marks 100)
      then courses ++ [mkCourse (row_title row) credits marks]
      else courses
  | _, _ => courses
  end.

Definition getAllCourses (courseRows : list CourseRow) : list Course :=
  fold_left pushRow courseRows [].

(** What [calculateCGPA] does: it raises an [alert] and returns, or it
    hands four values to [displayCGPAResults]. *)
Inductive Outcome : Type :=
| Alert (message : string)
| Display (semesterGPA newCGPA totalCredits : Q) (status : StatusInfo).

(** [x || 0] on a parsed number: NaN and 0 both give 0. *)
Definition orZero (parsed : option Q) : Q :=
  match parsed with
  | Some x => x
  | None => 0
  end.

Definition calculateCGPA (currentCGPAField : option Q)
    (completedCreditsField : option Z) (courseRows : list CourseRow) : Outcome :=
  let currentCGPA := orZero currentCGPAField in
  let completedCredits := orZero (option_map inject_Z completedCreditsField) in
  if Num.ltb currentCGPA 0 || Num.gtb currentCGPA 4 then
    Alert "Current CGPA must be between 0.0 and 4.0"
  else if Num.ltb completedCredits 0 then
    Alert "Completed credits cannot be negative"
  else
    let courses := getAllCourses courseRows in
    match courses with
    | [] => Alert "Please add at least one course with valid information"
    | _ =>
        let semesterGPA := calculateSemesterGPA courses in
        let currentCredits :=
          fold_left (fun sum course => sum + credits course) courses 0 in
        let newCGPA :=
          calculateCumulativeCGPA currentCGPA completedCredits
                                  semesterGPA currentCredits in
        let status := getAcademicStatus newCGPA in
        Display semesterGPA newCGPA (completedCredits + currentCredits) status
    end.

(** *** The live grade display: [getGradeColor] and the input listener *)

(** What reading [colors[grade]] and falling back gives: a colour string, or,
    for a key that [colors] inherits from [Object.prototype], the inherited
    member (a truthy value that is no string). *)
Inductive Colour : Type :=
| Code (colour : string)
| PrototypeMember (key : string).

(** The object literal [colors] of [getGradeColor], as its own
    properties. *)
Definition colors : list (string * string) :=
  [ ("A+", "#16a34a"); ("A", "#16a34a");
    ("B+", "#004ea2"); ("B", "#004ea2");
    ("C+", "#64748b"); ("C", "#64748b");
    ("D+", "#b45309"); ("D", "#b45309");
    ("F", "#dc2626") ].

(** The members every object literal inherits. *)
Definition objectPrototypeKeys : list string :=
  [ "constructor"; "__proto__"; "hasOwnProperty"; "isPrototypeOf";
    "propertyIsEnumerable"; "toLocaleString"; "toString"; "valueOf";
    "__defineGetter__"; "__defineSetter__";
    "__lookupGetter__"; "__lookupSetter__" ].

Fixpoint ownProperty (object : list (string * string)) (key : string)
  : option string :=
  match object with
  | [] => None
  | (k, v) :: rest => if String.eqb k key then Some v else ownProperty rest key
  end.

Definition getGradeColor (grade : string) : Colour :=
  match ownProperty colors grade with
  | Some colour => if String.eqb colour "" then Code "#f59e0b" else Code colour
  | None =>
      if existsb (String.eqb grade) objectPrototypeKeys
      then PrototypeMember grade
      else Code "#f59e0b"
  end.

(** The decimal digits of a natural number, and [toFixed(2)] on the exact
    value of a number: the sign, then the integer [n] with [n / 100] closest
    to the magnitude (the larger one on a tie), written with two digits
    after the point. *)
Definition digits (n : Z) : string :=
  NilZero.string_of_uint (N.to_uint (Z.to_N n)).

Definition toFixed2 (x : Q) : string :=
  let sign := if Num.ltb x 0 then "-" else "" in
  let n := Qfloor (Qabs x * 100 + (1 # 2)) in
  let fraction := (n mod 100)%Z in
  (sign ++ digits (n / 100) ++ "."
   ++ (if (fraction <? 10)%Z then "0" else "") ++ digits fraction)%string.

(** What the listener writes into the [.grade-result] element of the
    row. *)
Record GradeDisplay : Type := mkDisplay {
  textContent : string;
  color : Colour
}.

(** The body of the [input] listener for a [.course-marks] field, on the
    result of [parseFloat] ([None] for NaN). *)
Definition onMarksInput (parsed : option Q) : GradeDisplay :=
  match parsed with
  | Some marks =>
      if Num.geb marks 0 && Num.leb marks 100 then
        let gradeInfo := marksToGrade marks in
        mkDisplay (grade gradeInfo ++ " (" ++ toFixed2 (point gradeInfo) ++ ")")%string
                  (getGradeColor (grade gradeInfo))
      else if Num.gtb marks 100 then mkDisplay "Max 100" (Code "#ef4444")
      else mkDisplay "-" (Code "#f59e0b")
  | None => mkDisplay "-" (Code "#f59e0b")
  end.

(** *** The course rows: [addCourse], [removeCourse], [resetCalculator]

    The page is the counter [courseCounter], the [.course-row] elements in
    document order, the timers that [removeCourse] has started and not yet
    seen fire, and the fields [resetCalculator] writes.  An element has an
    identity ([node]) besides its [data-course-id].  Animations and
    scrolling are left out. *)

Record Row : Type := mkDomRow {
  node : nat;
  courseId : Z;
  titleValue : string;
  creditsValue : string;
  marksValue : string;
  gradeText : string;
  gradeColor : option string
}.

Record Page : Type := mkPage {
  courseCounter : Z;
  rows : list Row;
  timers : list nat;
  nextNode : nat;
  currentCGPAValue : string;
  completedCreditsValue : string;
  totalSemestersValue : string;
  resultsShown : bool
}.

(** [addCourse]: the counter is incremented, and a new element with that
    number, empty inputs and the grade text "-" is appended. *)
Definition addCourse (page : Page) : Page :=
  let counter := (courseCounter page + 1)%Z in
  let courseRow := mkDomRow (nextNode page) counter "" "" "" "-" None in
  mkPage counter (rows page ++ [courseRow]) (timers page)
         (S (nextNode page))
         (currentCGPAValue page) (completedCreditsValue page)
         (totalSemestersValue page) (resultsShown page).

(** [document.querySelector('[data-course-id=...]')]: the first element
    with the number. *)
Definition querySelector (page : Page) (id : Z) : option Row :=
  find (fun row => (courseId row =? id)%Z) (rows page).

(** [removeCourse]: when an element has the number, a timer is started that
    will remove that element. *)
Definition removeCourse (id : Z) (page : Page) : Page :=
  match querySelector page id with
  | Some courseRow =>
      mkPage (courseCounter page) (rows page)
             (timers page ++ [node courseRow]) (nextNode page)
             (currentCGPAValue page) (completedCreditsValue page)
             (totalSemestersValue page) (resultsShown page)
  | None => page
  end.

Fixpoint removeFirst (n : nat) (ns : list nat) : list nat :=
  match ns with
  | [] => []
  | m :: rest => if Nat.eqb m n then rest else m :: removeFirst n rest
  end.

(** A timer of [removeCourse] fires: [courseRow.remove()] detaches the
    element, if it is still there. *)
Definition timerFires (n : nat) (page : Page) : Page :=
  mkPage (courseCounter page)
         (filter (fun row => negb (Nat.eqb (node row) n)) (rows page))
         (removeFirst n (timers page)) (nextNode page)
         (currentCGPAValue page) (completedCreditsValue page)
         (totalSemestersValue page) (resultsShown page).

(** [resetCalculator]: the three student fields become "0", the first row
    is emptied and the other rows are removed, the counter is 1 again and
    the results are hidden. *)
Definition resetCalculator (page : Page) : Page :=
  mkPage 1
         (match rows page with
          | [] => []
          | row :: _ =>
              [mkDomRow (node row) (courseId row) "" "" "" "-" (Some "#f59e0b")]
          end)
         (timers page) (nextNode page) "0" "0" "0" false.

(** What the user and the clock can do to the rows. *)
Inductive Event : Type :=
| AddCourse
| RemoveCourse (id : Z)
| TimerFires (n : nat)
| ResetCalculator.

Definition handle (page : Page) (event : Event) : Page :=
  match event with
  | AddCourse => addCourse page
  | RemoveCourse id => removeCourse id page
  | TimerFires n => if existsb (Nat.eqb n) (timers page)
                    then timerFires n page else page
  | ResetCalculator => resetCalculator page
  end.

End JS.

(** ** The arithmetic of the web calculator on binary64 numbers

    The same functions of [frame/script.js] with a [number] as a binary64
    float: the operations round, overflow to an infinity and produce NaN as
    JavaScript's do, and a comparison with NaN is false. *)

Module JS64.

Import PrimFloat.
Local Open Scope float_scope.

Record GradeBand : Type := mkBand {
  min : float;
  max : float;
  band_grade : string;
  band_point : float
}.

Record GradeInfo : Type := mkGrade {
  grade : string;
  point : float
}.

Definition GRADING_SCALE : list GradeBand :=
  [ mkBand 90 100 "A+" 4.0;
    mkBand 85 89 "A" 3.75;
    mkBand 80 84 "B+" 3.5;
    mkBand 75 79 "B" 3.25;
    mkBand 70 74 "C+" 3.0;
    mkBand 65 69 "C" 2.75;
    mkBand 60 64 "D+" 2.5;
    mkBand 50 59 "D" 2.25;
    mkBand 0 49 "F" 0.0 ].

Fixpoint scanBands (scale : list GradeBand) (marks : float) : option GradeInfo :=
  match scale with
  | [] => None
  | b :: rest =>
      if (min b <=? marks) && (marks <=? max b)
      then Some (mkGrade (band_grade b) (band_point b))
      else scanBands rest marks
  end.

Definition marksToGrade (marks : float) : GradeInfo :=
  if (marks <? 0) || (100 <? marks) then mkGrade "Invalid" 0.0
  else match scanBands GRADING_SCALE marks with
       | Some g => g
       | None => mkGrade "F" 0.0
       end.

Record Course : Type := mkCourse {
  title : string;
  credits : float;
  marks : float
}.

Definition accumulate (acc : float * float) (course : Course) : float * float :=
  let gradeInfo := marksToGrade (marks course) in
  (fst acc + point gradeInfo * credits course, snd acc + credits course).

Definition calculateSemesterGPA (courses : list Course) : float :=
  match courses with
  | [] => 0.0
  | _ =>
      let '(totalPoints, totalCredits) := fold_left accumulate courses (0.0, 0) in
      if 0 <? totalCredits then totalPoints / totalCredits else 0.0
  end.

Definition calculateCumulativeCGPA
    (prevCGPA prevCredits currentGPA currentCredits : float) : float :=
  let totalPoints := (prevCGPA * prevCredits) + (currentGPA * currentCredits) in
  let totalCredits := prevCredits + currentCredits in
  if 0 <? totalCredits then totalPoints / totalCredits else 0.0.



Definition threePointOne : float := 0x1.8cccccccccccdp+1.


(** The [reduce] of [calculateCGPA] that sums the credits of the courses. *)
Definition sumCredits (courses : list Course) : float :=
  fold_left (fun sum course => sum + credits course) courses 0.

(** Two course lists whose blended GPA is rounded differently from the GPA
    of the two lists together. *)
Definition previousExample : list Course :=
  [ mkCourse "Algebra" 3 72 ].

Definition currentExample : list Course :=
  [ mkCourse "Physics" 6 95; mkCourse "Chemistry" 6 72;
    mkCourse "Biology" 4 55; mkCourse "History" 5 40 ].

(** [calculateCumulativeCGPA(3.1, 3, 3.1, 15)]. *)
Definition blendOfEqual : float :=
  calculateCumulativeCGPA threePointOne 3 threePointOne 15.

End JS64.

(** ** The legacy backend, [source/GradeCalculator.java] *)

Module Java.

(** *** [int] and [double] *)

(** What a 32-bit two's-complement [int] holds after an operation whose
    exact result is [z]: the representative of [z] modulo 2^32 in
    [-2^31, 2^31). *)
Definition wrap32 (z : Z) : Z := ((z + 2 ^ 31) mod 2 ^ 32 - 2 ^ 31)%Z.

Definition int_add (x y : Z) : Z := wrap32 (x + y).

(** The cast [(int) d]: rounding toward zero, saturating at the ends of
    the [int] range. *)
Definition double_to_int (d : Q) : Z :=
  let t := Z.quot (Qnum d) (Z.pos (Qden d)) in
  if (t <? - 2 ^ 31)%Z then (- 2 ^ 31)%Z
  else if (2 ^ 31 - 1 <? t)%Z then (2 ^ 31 - 1)%Z
  else t.

(** The widening of an [int] operand in a [double] expression. *)
Definition int_to_double (i : Z) : Q := inject_Z i.

(** *** Results and [IllegalArgumentException] *)

Inductive result (A : Type) : Type :=
| Ok (value : A)
| IllegalArgumentException (message : string).

Arguments Ok {A} value.
Arguments IllegalArgumentException {A} message.

Definition bind {A B : Type} (r : result A) (k : A -> result B) : result B :=
  match r with
  | Ok a => k a
  | IllegalArgumentException m => IllegalArgumentException m
  end.

Notation "x <- r ;; k" := (bind r (fun x => k))
  (at level 61, r at next level, right associativity).

(** *** [GradeInfo], [Course] and the [TreeMap] of the scale *)

Record GradeInfo : Type := mkGradeInfo {
  letterGrade : string;
  gradePoint : Q
}.

Record Course : Type := mkCourse {
  title : string;
  credits : Z;
  marks : Q
}.

(** A [TreeMap<Integer, GradeInfo>]: the entries in ascending key order. *)
Definition TreeMap : Type := list (Z * GradeInfo).

Fixpoint put (key : Z) (value : GradeInfo) (m : TreeMap) : TreeMap :=
  match m with
  | [] => [(key, value)]
  | (k, v) :: rest =>
      if (key <? k)%Z then (key, value) :: m
      else if (key =? k)%Z then (key, value) :: rest
      else (k, v) :: put key value rest
  end.

(** [floorEntry key]: the entry with the greatest key [<= key], or [None]
    (Java's [null]) when there is none. *)
Fixpoint floorEntry (m : TreeMap) (key : Z) : option (Z * GradeInfo) :=
  match m with
  | [] => None
  | (k, v) :: rest =>
      if (k <=? key)%Z then
        match floorEntry rest key with
        | Some e => Some e
        | None => Some (k, v)
        end
      else None
  end.

(** The static initialiser, in its order of [put] calls. *)
Definition GRADE_SCALE : TreeMap :=
  put 0 (mkGradeInfo "F" 0.0)
  (put 50 (mkGradeInfo "D" 2.25)
  (put 60 (mkGradeInfo "D+" 2.5)
  (put 65 (mkGradeInfo "C" 2.75)
  (put 70 (mkGradeInfo "C+" 3.0)
  (put 75 (mkGradeInfo "B" 3.25)
  (put 80 (mkGradeInfo "B+" 3.5)
  (put 85 (mkGradeInfo "A" 3.75)
  (put 90 (mkGradeInfo "A+" 4.0) [])))))))).

(** *** The four operations *)

Definition marksToGrade (marks : Q) : result GradeInfo :=
  if Num.ltb marks 0 || Num.gtb marks 100 then
    IllegalArgumentException "Marks must be between 0 and 100"
  else
    match floorEntry GRADE_SCALE (double_to_int marks) with
    | Some entry => Ok (snd entry)
    | None => Ok (mkGradeInfo "F" 0.0)
    end.

(** The [for (Course course : courses)] loop of [calculateSemesterGPA] on
    its two accumulators; an exception of [marksToGrade] leaves the loop. *)
Fixpoint sumCourses (courses : list Course) (totalPoints : Q) (totalCredits : Z)
  : result (Q * Z) :=
  match courses with
  | [] => Ok (totalPoints, totalCredits)
  | course :: rest =>
      grade <- marksToGrade (marks course) ;;
      sumCourses rest
        (totalPoints + gradePoint grade * int_to_double (credits course))
        (int_add totalCredits (credits course))
  end.

(** [courses] is an array reference: [None] is [null]. *)
Definition calculateSemesterGPA (courses : option (list Course)) : result Q :=
  match courses with
  | None => Ok 0.0
  | Some [] => Ok 0.0
  | Some cs =>
      totals <- sumCourses cs 0.0 0 ;;
      let '(totalPoints, totalCredits) := totals in
      Ok (if (0 <? totalCredits)%Z
          then totalPoints / int_to_double totalCredits
          else 0.0)
  end.

Definition calculateCumulativeCGPA (previousCGPA : Q) (previousCredits : Z)
    (currentGPA : Q) (currentCredits : Z) : result Q :=
  if (previousCredits <? 0)%Z || (currentCredits <? 0)%Z then
    IllegalArgumentException "Credits cannot be negative"
  else if Num.ltb previousCGPA 0.0 || Num.gtb previousCGPA 4.0 then
    IllegalArgumentException "CGPA must be between 0.0 and 4.0"
  else
    let totalPoints :=
      (previousCGPA * int_to_double previousCredits)
      + (currentGPA * int_to_double currentCredits) in
    let totalCredits := int_add previousCredits currentCredits in
    Ok (if (0 <? totalCredits)%Z
        then totalPoints / int_to_double totalCredits
        else 0.0).

Definition getAcademicStatus (cgpa : Q) : string :=
  if Num.ltb cgpa 0.0 || Num.gtb cgpa 4.0 then "Invalid CGPA"
  else if Num.geb cgpa 3.75 then "Dean's List"
  else if Num.geb cgpa 3.5 then "Excellent Standing"
  else if Num.geb cgpa 3.0 then "Good Standing"
  else if Num.geb cgpa 2.5 then "Satisfactory"
  else if Num.geb cgpa 2.0 then "Warning"
  else "Academic Probation".

End Java.

(** ** The specification's tables and formulas *)

Module Spec.

(** The band table of the grade scale, highest band first:
    [(minMark, maxMark, letter, point)]. *)
Definition bands : list (Q * Q * string * Q) :=
  [ (90, 100, "A+", 4.00);
    (85, 89, "A", 3.75);
    (80, 84, "B+", 3.50);
    (75, 79, "B", 3.25);
    (70, 74, "C+", 3.00);
    (65, 69, "C", 2.75);
    (60, 64, "D+", 2.50);
    (50, 59, "D", 2.25);
    (0, 49, "F", 0.00) ].

(** The eighteen boundary marks with the pair the table gives each. *)
Definition boundaryCases : list (Q * string * Q) :=
  [ (0, "F", 0.00); (49, "F", 0.00);
    (50, "D", 2.25); (59, "D", 2.25);
    (60, "D+", 2.50); (64, "D+", 2.50);
    (65, "C", 2.75); (69, "C", 2.75);
    (70, "C+", 3.00); (74, "C+", 3.00);
    (75, "B", 3.25); (79, "B", 3.25);
    (80, "B+", 3.50); (84, "B+", 3.50);
    (85, "A", 3.75); (89, "A", 3.75);
    (90, "A+", 4.00); (100, "A+", 4.00) ].

(** The sum of a list of numbers. *)
Definition total (xs : list Q) : Q := fold_right Qplus 0 xs.

(** [sum over courses of gradeFor(course.marks).point * course.credits]. *)
Definition weightedPoints (courses : list JS.Course) : Q :=
  total (map (fun c => JS.point (JS.marksToGrade (JS.marks c)) * JS.credits c)
             courses).

(** [sum of course.credits]. *)
Definition creditSum (courses : list JS.Course) : Q :=
  total (map JS.credits courses).

(** Distance between two numbers. *)
Definition dist (x y : Q) : Q := Qabs (x - y).

(** The band test of the web lookup's loop, as a proposition. *)
Definition inBand (marks : Q) (b : JS.GradeBand) : Prop :=
  JS.min b <= marks /\ marks <= JS.max b.

(** The point the Java lookup gives the marks (0 when it throws). *)
Definition pointOfJava (marks : Q) : Q :=
  match Java.marksToGrade marks with
  | Java.Ok g => Java.gradePoint g
  | Java.IllegalArgumentException _ => 0
  end.

(** The two sums over an array of Java courses; the credits are summed as
    integers, without wrap-around. *)
Definition weightedPointsJava (courses : list Java.Course) : Q :=
  total (map (fun c => pointOfJava (Java.marks c) * inject_Z (Java.credits c))
             courses).

Definition creditSumJava (courses : list Java.Course) : Z :=
  fold_right Z.add 0%Z (map Java.credits courses).

(** The six regular standing labels. *)
Definition standingLabels : list string :=
  [ "Dean's List"; "Excellent Standing"; "Good Standing";
    "Satisfactory"; "Warning"; "Academic Probation" ].

(** The four courses of the regression example, (credits, marks) =
    (3, 88), (3, 92), (3, 85), (3, 90), with the titles of the Java test. *)
Definition fourCourses : list JS.Course :=
  [ JS.mkCourse "Programming in Java" 3 88;
    JS.mkCourse "Data Structures" 3 92;
    JS.mkCourse "Database Management" 3 85;
    JS.mkCourse "Web Technologies" 3 90 ].

Definition fourCoursesJava : list Java.Course :=
  [ Java.mkCourse "Programming in Java" 3 88;
    Java.mkCourse "Data Structures" 3 92;
    Java.mkCourse "Database Management" 3 85;
    Java.mkCourse "Web Technologies" 3 90 ].

(** The regular label that the text of a web status starts with; the text
    may carry a decorative symbol after it. *)
Definition labelOf (s : JS.StatusInfo) : option string :=
  find (fun label => String.prefix label (JS.text s)) standingLabels.

(** Both implementations give the CGPA the standing [label]. *)
Definition statusIs (cgpa : Q) (label : string) : Prop :=
  labelOf (JS.getAcademicStatus cgpa) = Some label
  /\ Java.getAcademicStatus cgpa = label.

(** The marks of [0, 100] that lie strictly between two bands of the web
    scale. *)
Definition inGap (marks : Q) : Prop :=
  49 < marks < 50 \/ 59 < marks < 60 \/ 64 < marks < 65
  \/ 69 < marks < 70 \/ 74 < marks < 75 \/ 79 < marks < 80
  \/ 84 < marks < 85 \/ 89 < marks < 90.

(** A Java course as a course object of the web calculator. *)
Definition toJS (c : Java.Course) : JS.Course :=
  JS.mkCourse (Java.title c) (inject_Z (Java.credits c)) (Java.marks c).

(** What a form row has to satisfy to become a course, and the course it
    becomes. *)
Definition rowAccepted (row : JS.CourseRow) (course : JS.Course) : Prop :=
  JS.row_title row <> ""
  /\ JS.row_credits row = Some (JS.credits course)
  /\ JS.row_marks row = Some (JS.marks course)
  /\ JS.title course = JS.row_title row
  /\ 0 < JS.credits course
  /\ 0 <= JS.marks course <= 100.

(** The nine texts and colours of the live grade display. *)
Definition gradeDisplays : list (Q * Q * JS.GradeDisplay) :=
  [ (90, 100, JS.mkDisplay "A+ (4.00)" (JS.Code "#16a34a"));
    (85, 89, JS.mkDisplay "A (3.75)" (JS.Code "#16a34a"));
    (80, 84, JS.mkDisplay "B+ (3.50)" (JS.Code "#004ea2"));
    (75, 79, JS.mkDisplay "B (3.25)" (JS.Code "#004ea2"));
    (70, 74, JS.mkDisplay "C+ (3.00)" (JS.Code "#64748b"));
    (65, 69, JS.mkDisplay "C (2.75)" (JS.Code "#64748b"));
    (60, 64, JS.mkDisplay "D+ (2.50)" (JS.Code "#b45309"));
    (50, 59, JS.mkDisplay "D (2.25)" (JS.Code "#b45309"));
    (0, 49, JS.mkDisplay "F (0.00)" (JS.Code "#dc2626")) ].

(** Credits that are whole numbers above 0, as the credits field of a row
    (min 1, step 1) provides. *)
Definition wholeCredits (course : JS.Course) : Prop :=
  exists n : Z, (0 < n)%Z /\ JS.credits course == inject_Z n.


(** The rows of the page are numbered apart: no two elements share an
    identity or a [data-course-id], and no number is above the counter. *)
Definition numberedApart (page : JS.Page) : Prop :=
  NoDup (map JS.node (JS.rows page))
  /\ Forall (fun row => (JS.node row < JS.nextNode page)%nat) (JS.rows page)
  /\ NoDup (map JS.courseId (JS.rows page))
  /\ Forall (fun row => (JS.courseId row <= JS.courseCounter page)%Z)
            (JS.rows page).

(** A page with a single empty row numbered 1, which the initial value 1 of
    [courseCounter] presumes. *)
Definition firstPage : JS.Page :=
  JS.mkPage 1 [JS.mkDomRow 0 1 "" "" "" "-" None] [] 1 "" "" "" false.

(** An event other than a reset. *)
Definition keepsCounter (event : JS.Event) : Prop :=
  event <> JS.ResetCalculator.

End Spec.

(** ** Comparisons: booleans against propositions *)

Lemma leb_reflect (x y : Q) : reflect (x <= y) (Num.leb x y).
Proof.
  unfold Num.leb. apply iff_reflect. symmetry. apply Qle_bool_iff.
Qed.

Lemma ltb_reflect (x y : Q) : reflect (x < y) (Num.ltb x y).
Proof.
  unfold Num.ltb. fold (Num.leb y x).
  destruct (leb_reflect y x) as [Hle | Hnle]; cbn.
  - apply ReflectF. apply Qle_not_lt. exact Hle.
  - apply ReflectT. apply Qnot_le_lt. exact Hnle.
Qed.

Lemma geb_reflect (x y : Q) : reflect (y <= x) (Num.geb x y).
Proof. apply leb_reflect. Qed.

Lemma gtb_reflect (x y : Q) : reflect (y < x) (Num.gtb x y).
Proof. apply ltb_reflect. Qed.

(** Settle the next comparison of the goal from the hypotheses, or split
    on it. *)
Ltac cmp_step :=
  match goal with
  | |- context [Num.geb ?x ?y] =>
      destruct (geb_reflect x y); try lra; cbn [andb orb negb]
  | |- context [Num.gtb ?x ?y] =>
      destruct (gtb_reflect x y); try lra; cbn [andb orb negb]
  | |- context [Num.leb ?x ?y] =>
      destruct (leb_reflect x y); try lra; cbn [andb orb negb]
  | |- context [Num.ltb ?x ?y] =>
      destruct (ltb_reflect x y); try lra; cbn [andb orb negb]
  end.

Ltac cmp := repeat cmp_step.

(** ** Grade lookup *)

Section ScanBands.

Variable marks : Q.

Lemma scanBands_None (scale : list JS.GradeBand) :
  JS.scanBands scale marks = None <-> Forall (fun b => ~ Spec.inBand marks b) scale.
Proof.
  unfold Spec.inBand.
  induction scale as [| b rest IH]; cbn [JS.scanBands].
  - split; [constructor | reflexivity].
  - destruct (geb_reflect marks (JS.min b)) as [Hmin | Hmin];
      destruct (leb_reflect marks (JS.max b)) as [Hmax | Hmax]; cbn [andb].
    + split; [discriminate |].
      intros Hall. inversion Hall as [| ? ? Hb _]. exfalso. apply Hb. now split.
    + rewrite IH. split.
      * intros Hall. constructor; [tauto | exact Hall].
      * intros Hall. now inversion Hall.
    + rewrite IH. split.
      * intros Hall. constructor; [tauto | exact Hall].
      * intros Hall. now inversion Hall.
    + rewrite IH. split.
      * intros Hall. constructor; [tauto | exact Hall].
      * intros Hall. now inversion Hall.
Qed.

Lemma scanBands_Some (scale : list JS.GradeBand) (g : JS.GradeInfo) :
  JS.scanBands scale marks = Some g ->
  exists b, In b scale /\ Spec.inBand marks b
            /\ g = JS.mkGrade (JS.band_grade b) (JS.band_point b).
Proof.
  unfold Spec.inBand.
  induction scale as [| b rest IH]; cbn [JS.scanBands]; [discriminate |].
  destruct (geb_reflect marks (JS.min b)) as [Hmin | Hmin];
    destruct (leb_reflect marks (JS.max b)) as [Hmax | Hmax]; cbn [andb];
    try (intros Hrest; destruct (IH Hrest) as (b' & Hin & Hb');
         exists b'; split; [now right | exact Hb']).
  intros [= <-]. exists b. repeat split; try assumption. now left.
Qed.

End ScanBands.

(** Every point of the scale, and the point of the sentinel and of the
    fallback, lies in [0, 4]. *)
Lemma marksToGrade_point_range (marks : Q) :
  0 <= JS.point (JS.marksToGrade marks) <= 4.
Proof.
  unfold JS.marksToGrade.
  destruct (Num.ltb marks 0 || Num.gtb marks 100); [cbn; lra |].
  destruct (JS.scanBands JS.GRADING_SCALE marks) as [g |] eqn:Hscan;
    [| cbn; lra].
  apply scanBands_Some in Hscan. destruct Hscan as (b & Hin & _ & ->).
  cbn [JS.point].
  unfold JS.GRADING_SCALE in Hin. cbn [In] in Hin.
  repeat (destruct Hin as [<- | Hin]; [cbn; lra |]).
  contradiction.
Qed.

(** Inside a band of the table, both ends included, the web lookup returns
    the band's pair. *)
Lemma marksToGrade_in_band (lo hi : Q) (letter : string) (pt marks : Q) :
  In (lo, hi, letter, pt) Spec.bands ->
  lo <= marks <= hi ->
  JS.grade (JS.marksToGrade marks) = letter
  /\ JS.point (JS.marksToGrade marks) == pt.
Proof.
  intros Hin [Hlo Hhi].
  unfold Spec.bands in Hin. cbn [In] in Hin.
  repeat (destruct Hin as [[= <- <- <- <-] | Hin];
          [ unfold JS.marksToGrade, JS.GRADING_SCALE;
            cbn [JS.scanBands JS.min JS.max JS.band_grade JS.band_point];
            cmp; cbn [JS.grade JS.point]; split; [reflexivity | lra] |]).
  contradiction.
Qed.

(** *** The Java lookup *)

Lemma GRADE_SCALE_sorted :
  Java.GRADE_SCALE =
  [ (0, Java.mkGradeInfo "F" 0.0); (50, Java.mkGradeInfo "D" 2.25);
    (60, Java.mkGradeInfo "D+" 2.5); (65, Java.mkGradeInfo "C" 2.75);
    (70, Java.mkGradeInfo "C+" 3.0); (75, Java.mkGradeInfo "B" 3.25);
    (80, Java.mkGradeInfo "B+" 3.5); (85, Java.mkGradeInfo "A" 3.75);
    (90, Java.mkGradeInfo "A+" 4.0) ]%Z.
Proof. reflexivity. Qed.

Lemma double_to_int_floor (d : Q) (k : Z) :
  0 <= d -> d <= 100 ->
  ((k <= Java.double_to_int d)%Z <-> inject_Z k <= d).
Proof.
  destruct d as [n p]. unfold Qle, inject_Z. cbn [Qnum Qden]. intros H0 H100.
  assert (Hn : (0 <= n)%Z) by lia.
  assert (Hq : (Z.quot n (Z.pos p) = n / Z.pos p)%Z)
    by (apply Z.quot_div_nonneg; lia).
  assert (Hle : (n / Z.pos p <= 100)%Z).
  { apply Z.div_le_upper_bound; lia. }
  assert (Hge : (0 <= n / Z.pos p)%Z) by (apply Z.div_pos; lia).
  unfold Java.double_to_int. cbn [Qnum Qden]. rewrite Hq.
  destruct (Z.ltb_spec (n / Z.pos p) (- 2 ^ 31)) as [Hlow | _]; [lia |].
  destruct (Z.ltb_spec (2 ^ 31 - 1) (n / Z.pos p)) as [Hhigh | _]; [lia |].
  split.
  - intros Hk.
    assert (Hm : (Z.pos p * (n / Z.pos p) <= n)%Z)
      by (apply Z.mul_div_le; lia).
    nia.
  - intros Hk. apply Z.div_le_lower_bound; lia.
Qed.

Lemma Java_marksToGrade_in_band (lo hi : Q) (letter : string) (pt marks : Q) :
  In (lo, hi, letter, pt) Spec.bands ->
  lo <= marks -> marks < hi + 1 -> marks <= 100 ->
  exists g, Java.marksToGrade marks = Java.Ok g
            /\ Java.letterGrade g = letter /\ Java.gradePoint g == pt.
Proof.
  intros Hin Hlo Hhi H100.
  assert (H0 : 0 <= marks).
  { unfold Spec.bands in Hin. cbn [In] in Hin.
    repeat (destruct Hin as [[= <- <- <- <-] | Hin]; [lra |]).
    contradiction. }
  unfold Java.marksToGrade. cmp.
  rewrite GRADE_SCALE_sorted.
  pose proof (fun k => double_to_int_floor marks k H0 H100) as Hfloor.
  set (t := Java.double_to_int marks) in *.
  assert (Hk : forall k : Z, ((k <= t)%Z -> inject_Z k <= marks)
                             /\ ((t < k)%Z -> marks < inject_Z k)).
  { intros k. split; [apply Hfloor |].
    intros Hn. apply Qnot_le_lt. intros Hle. apply Hfloor in Hle. lia. }
  clearbody t. clear Hfloor.
  unfold Spec.bands in Hin. cbn [In] in Hin.
  repeat (destruct Hin as [[= <- <- <- <-] | Hin];
          [ cbn [Java.floorEntry];
            repeat (match goal with
                    | |- context [(?k <=? t)%Z] =>
                        let Hc := fresh "Hc" in
                        destruct (Z.leb_spec k t) as [Hc | Hc];
                        apply Hk in Hc; unfold inject_Z in Hc; try lra
                    end);
            eexists; split; [reflexivity | cbn; split; [reflexivity | lra]] |]).
  contradiction.
Qed.

(** C1.  At each of the marks 0, 49, 50, 59, 60, 64, 65, 69, 70, 74, 75, 79,
    80, 84, 85, 89, 90 and 100 -- the two ends of each band of the table --
    the grade lookup returns the letter and the point of that band, in the
    web calculator and in the Java backend alike. *)
Theorem C1_boundary_marks :
  map (fun c => fst (fst c)) Spec.boundaryCases
  = [0; 49; 50; 59; 60; 64; 65; 69; 70; 74; 75; 79; 80; 84; 85; 89; 90; 100]
  /\ Forall (fun c => let '(m, letter, pt) := c in
               exists lo hi, In (lo, hi, letter, pt) Spec.bands
                             /\ (m = lo \/ m = hi))
            Spec.boundaryCases
  /\ Forall (fun c => let '(m, letter, pt) := c in
               (JS.grade (JS.marksToGrade m) = letter
                /\ JS.point (JS.marksToGrade m) == pt)
               /\ exists g, Java.marksToGrade m = Java.Ok g
                            /\ Java.letterGrade g = letter
                            /\ Java.gradePoint g == pt)
            Spec.boundaryCases.
Proof.
  split; [reflexivity | split].
  - unfold Spec.boundaryCases, Spec.bands.
    repeat (constructor;
            [ do 2 eexists; split;
              [ cbn [In]; repeat ((left; reflexivity) || right)
              | (left; reflexivity) || (right; reflexivity) ] |]).
    constructor.
  - unfold Spec.boundaryCases.
    repeat (constructor;
            [ split;
              [ split; [vm_compute; reflexivity | vm_compute; reflexivity]
              | eexists; split;
                [ vm_compute; reflexivity
                | split; [reflexivity | vm_compute; reflexivity] ] ] |]).
    constructor.
Qed.

Lemma scanBands_gaps (marks : Q) :
  0 <= marks <= 100 ->
  (JS.scanBands JS.GRADING_SCALE marks = None
   <-> 49 < marks < 50 \/ 59 < marks < 60 \/ 64 < marks < 65
       \/ 69 < marks < 70 \/ 74 < marks < 75 \/ 79 < marks < 80
       \/ 84 < marks < 85 \/ 89 < marks < 90).
Proof.
  intros [H0 H100].
  unfold JS.GRADING_SCALE.
  cbn [JS.scanBands JS.min JS.max JS.band_grade JS.band_point].
  cmp; (split; [ intros Heq; try discriminate Heq; lra
               | intros Hgap; try reflexivity; exfalso; lra ]).
Qed.

Lemma scanBands_integer (z : Z) :
  (0 <= z <= 100)%Z ->
  exists g, JS.scanBands JS.GRADING_SCALE (inject_Z z) = Some g.
Proof.
  intros Hz.
  destruct (JS.scanBands JS.GRADING_SCALE (inject_Z z)) as [g |] eqn:Hscan;
    [now exists g | exfalso].
  assert (Hq : 0 <= inject_Z z <= 100).
  { split; [change 0 with (inject_Z 0) | change 100 with (inject_Z 100)];
      rewrite <- Zle_Qle; lia. }
  apply (scanBands_gaps _ Hq) in Hscan.
  assert (Hint : forall n : Z, inject_Z n < inject_Z z ->
                               inject_Z z < inject_Z (n + 1) -> False).
  { intros n Hlt1 Hlt2. rewrite <- Zlt_Qlt in Hlt1, Hlt2. lia. }
  repeat (destruct Hscan as [[Ha Hb] | Hscan];
          [ match type of Ha with
            | ?q < _ =>
                let n := eval cbv in (Qnum q) in
                exact (Hint n Ha Hb)
            end |]).
  destruct Hscan as [Ha Hb].
  exact (Hint 89%Z Ha Hb).
Qed.

Lemma Java_floorEntry_found (marks : Q) :
  0 <= marks <= 100 ->
  exists e, Java.floorEntry Java.GRADE_SCALE (Java.double_to_int marks) = Some e.
Proof.
  intros [H0 H100].
  assert (Ht : (0 <= Java.double_to_int marks)%Z)
    by (apply double_to_int_floor; assumption).
  rewrite GRADE_SCALE_sorted. cbn [Java.floorEntry].
  destruct (Z.leb_spec 0 (Java.double_to_int marks)) as [_ | Hneg]; [| lia].
  match goal with
  | |- exists e, match ?inner with _ => _ end = _ =>
      destruct inner as [e |]; eexists; reflexivity
  end.
Qed.

(** C2.  The marks 89.5 are within [0, 100], lie in no band of
    [GRADING_SCALE], and so reach the return after the loop of the web
    lookup, which grades them F with 0.00 points; the Java lookup grades
    the same marks A with 3.75 points. *)
Theorem C2_fallback_reached_at_89_5 :
  0 <= 89.5 <= 100
  /\ JS.scanBands JS.GRADING_SCALE 89.5 = None
  /\ JS.marksToGrade 89.5 = JS.mkGrade "F" 0.0
  /\ Java.marksToGrade 89.5 = Java.Ok (Java.mkGradeInfo "A" 3.75).
Proof.
  repeat split; try reflexivity; lra.
Qed.

(** ** Semester GPA *)

Lemma total_app (xs ys : list Q) :
  Spec.total (xs ++ ys) == Spec.total xs + Spec.total ys.
Proof.
  unfold Spec.total.
  induction xs as [| x xs IH]; cbn [app fold_right].
  - lra.
  - rewrite IH. lra.
Qed.

Lemma weightedPoints_cons (c : JS.Course) (rest : list JS.Course) :
  Spec.weightedPoints (c :: rest)
  = JS.point (JS.marksToGrade (JS.marks c)) * JS.credits c
    + Spec.weightedPoints rest.
Proof. reflexivity. Qed.

Lemma creditSum_cons (c : JS.Course) (rest : list JS.Course) :
  Spec.creditSum (c :: rest) = JS.credits c + Spec.creditSum rest.
Proof. reflexivity. Qed.

(** The loop of [calculateSemesterGPA] adds the two sums to its
    accumulators. *)
Lemma fold_accumulate (courses : list JS.Course) (acc : Q * Q) :
  fst (fold_left JS.accumulate courses acc)
  == fst acc + Spec.weightedPoints courses
  /\ snd (fold_left JS.accumulate courses acc)
     == snd acc + Spec.creditSum courses.
Proof.
  revert acc.
  induction courses as [| c rest IH]; intros acc; cbn [fold_left].
  - unfold Spec.weightedPoints, Spec.creditSum. cbn. split; lra.
  - destruct (IH (JS.accumulate acc c)) as [IHp IHc].
    rewrite IHp, IHc, weightedPoints_cons, creditSum_cons.
    unfold JS.accumulate. cbn [fst snd]. split; lra.
Qed.

Lemma calculateSemesterGPA_cons (c : JS.Course) (rest : list JS.Course) :
  let courses := c :: rest in
  (0 < Spec.creditSum courses ->
   JS.calculateSemesterGPA courses
   == Spec.weightedPoints courses / Spec.creditSum courses)
  /\ (~ 0 < Spec.creditSum courses ->
      JS.calculateSemesterGPA courses = 0.0).
Proof.
  intros courses.
  unfold JS.calculateSemesterGPA. fold courses.
  destruct (fold_accumulate courses (0.0, 0)) as [Hp Hc].
  destruct (fold_left JS.accumulate courses (0.0, 0)) as [tp tc].
  cbn [fst snd] in Hp, Hc. cbv beta iota.
  assert (Hp' : tp == Spec.weightedPoints courses) by lra.
  assert (Hc' : tc == Spec.creditSum courses) by lra.
  split; intros Hsum.
  - destruct (gtb_reflect tc 0) as [Hpos | Hnpos]; [| lra].
    unfold Qdiv. apply Qmult_comp; [exact Hp' | apply Qinv_comp; exact Hc'].
  - destruct (gtb_reflect tc 0) as [Hpos | Hnpos]; [lra | reflexivity].
Qed.

(** *** The Java loop *)

Lemma wrap32_small (z : Z) :
  (- 2 ^ 31 <= z < 2 ^ 31)%Z -> Java.wrap32 z = z.
Proof.
  intros Hz. unfold Java.wrap32.
  rewrite Z.mod_small by lia. lia.
Qed.

Lemma wrap32_add_l (a b : Z) :
  Java.wrap32 (Java.wrap32 a + b) = Java.wrap32 (a + b).
Proof.
  unfold Java.wrap32. f_equal.
  replace (((a + 2 ^ 31) mod 2 ^ 32 - 2 ^ 31 + b + 2 ^ 31))%Z
    with ((a + 2 ^ 31) mod 2 ^ 32 + b)%Z by lia.
  replace (a + b + 2 ^ 31)%Z with ((a + 2 ^ 31) + b)%Z by lia.
  apply Zplus_mod_idemp_l.
Qed.

Lemma pointOfJava_valid (marks : Q) :
  0 <= marks <= 100 ->
  exists g, Java.marksToGrade marks = Java.Ok g
            /\ Java.gradePoint g = Spec.pointOfJava marks.
Proof.
  intros [H0 H100]. unfold Spec.pointOfJava, Java.marksToGrade. cmp.
  destruct (Java.floorEntry Java.GRADE_SCALE (Java.double_to_int marks));
    eexists; split; reflexivity.
Qed.

(** With all marks within [0, 100] the loop ends normally, having added the
    two sums to its accumulators, the credits with wrap-around. *)
Lemma sumCourses_valid (courses : list Java.Course) :
  Forall (fun c => 0 <= Java.marks c <= 100) courses ->
  forall (tp : Q) (tc : Z),
  exists tp', Java.sumCourses courses tp tc
              = Java.Ok (tp', match courses with
                              | [] => tc
                              | _ => Java.wrap32 (tc + Spec.creditSumJava courses)
                              end)
              /\ tp' == tp + Spec.weightedPointsJava courses.
Proof.
  induction 1 as [| c rest Hc Hrest IH]; intros tp tc.
  - exists tp. split; [reflexivity |].
    unfold Spec.weightedPointsJava. cbn. lra.
  - cbn [Java.sumCourses].
    destruct (pointOfJava_valid _ Hc) as (g & -> & Hg).
    cbn [Java.bind].
    destruct (IH (tp + Java.gradePoint g * Java.int_to_double (Java.credits c))
                 (Java.int_add tc (Java.credits c))) as (tp' & -> & Htp').
    exists tp'. split.
    + f_equal. f_equal. unfold Java.int_add.
      destruct rest as [| c' rest'].
      * cbn. f_equal. lia.
      * rewrite wrap32_add_l. f_equal.
        unfold Spec.creditSumJava. cbn [map fold_right]. lia.
    + rewrite Htp', Hg. unfold Spec.weightedPointsJava, Java.int_to_double.
      cbn [map Spec.total fold_right]. unfold Spec.total. lra.
Qed.

(** A course with marks outside [0, 100] makes the loop throw. *)
Lemma sumCourses_invalid (courses : list Java.Course) :
  Exists (fun c => Java.marks c < 0 \/ 100 < Java.marks c) courses ->
  forall (tp : Q) (tc : Z),
  Java.sumCourses courses tp tc
  = Java.IllegalArgumentException "Marks must be between 0 and 100".
Proof.
  induction courses as [| c rest IH]; intros Hex tp tc.
  - inversion Hex.
  - cbn [Java.sumCourses]. unfold Java.marksToGrade at 1.
    destruct (ltb_reflect (Java.marks c) 0) as [Hneg | Hnn];
      [reflexivity |].
    destruct (gtb_reflect (Java.marks c) 100) as [Hbig | Hsmall];
      [reflexivity |].
    cbn [orb].
    assert (Hrest : Exists (fun c => Java.marks c < 0 \/ 100 < Java.marks c) rest).
    { inversion Hex as [? ? [Hc | Hc] | ? ? Hr]; [lra | lra | exact Hr]. }
    destruct (Java.floorEntry Java.GRADE_SCALE
                (Java.double_to_int (Java.marks c)));
      cbn [Java.bind]; apply IH; exact Hrest.
Qed.

Lemma Java_calculateSemesterGPA_valid (c : Java.Course) (rest : list Java.Course) :
  let courses := c :: rest in
  Forall (fun c => 0 <= Java.marks c <= 100) courses ->
  (- 2 ^ 31 <= Spec.creditSumJava courses < 2 ^ 31)%Z ->
  exists gpa, Java.calculateSemesterGPA (Some courses) = Java.Ok gpa
    /\ ((0 < Spec.creditSumJava courses)%Z ->
        gpa == Spec.weightedPointsJava courses
               / inject_Z (Spec.creditSumJava courses))
    /\ (~ (0 < Spec.creditSumJava courses)%Z -> gpa = 0.0).
Proof.
  intros courses Hvalid Hrange.
  unfold Java.calculateSemesterGPA. fold courses.
  destruct (sumCourses_valid courses Hvalid 0.0 0%Z) as (tp & -> & Htp).
  cbn [Java.bind]. unfold courses at 1 2. fold courses.
  rewrite Z.add_0_l, wrap32_small by exact Hrange.
  eexists. split; [reflexivity |].
  destruct (Z.ltb_spec 0 (Spec.creditSumJava courses)) as [Hpos | Hnpos].
  - split; [intros _ | lia].
    unfold Qdiv, Java.int_to_double.
    apply Qmult_comp; [lra | reflexivity].
  - split; [lia | reflexivity].
Qed.

(** C3.  The semester GPA of the empty course list is 0.0; of a non-empty
    list it is the sum over the courses of grade point times credits,
    divided by the sum of the credits, when that sum is positive, and 0.0
    otherwise.  This holds of the web calculator for every list; the Java
    backend returns the same (also 0.0 for a null array) whenever its grade
    lookup accepts the marks of every course and the credit sum fits an
    [int]. *)
Theorem C3_semester_gpa :
  JS.calculateSemesterGPA [] = 0.0
  /\ (forall (c : JS.Course) (rest : list JS.Course),
      let courses := c :: rest in
      (0 < Spec.creditSum courses ->
       JS.calculateSemesterGPA courses
       == Spec.weightedPoints courses / Spec.creditSum courses)
      /\ (~ 0 < Spec.creditSum courses ->
          JS.calculateSemesterGPA courses = 0.0))
  /\ Java.calculateSemesterGPA None = Java.Ok 0.0
  /\ Java.calculateSemesterGPA (Some []) = Java.Ok 0.0
  /\ (forall (c : Java.Course) (rest : list Java.Course),
      let courses := c :: rest in
      Forall (fun c => 0 <= Java.marks c <= 100) courses ->
      (- 2 ^ 31 <= Spec.creditSumJava courses < 2 ^ 31)%Z ->
      exists gpa, Java.calculateSemesterGPA (Some courses) = Java.Ok gpa
        /\ ((0 < Spec.creditSumJava courses)%Z ->
            gpa == Spec.weightedPointsJava courses
                   / inject_Z (Spec.creditSumJava courses))
        /\ (~ (0 < Spec.creditSumJava courses)%Z -> gpa = 0.0)).
Proof.
  split; [reflexivity |].
  split; [exact calculateSemesterGPA_cons |].
  split; [reflexivity |].
  split; [reflexivity |].
  exact Java_calculateSemesterGPA_valid.
Qed.

Lemma C3_semester_gpa_witness :
  JS.calculateSemesterGPA Spec.fourCourses
  == Spec.weightedPoints Spec.fourCourses / Spec.creditSum Spec.fourCourses
  /\ JS.calculateSemesterGPA [JS.mkCourse "Seminar" 0 70] = 0.0
  /\ exists gpa,
       Java.calculateSemesterGPA (Some Spec.fourCoursesJava) = Java.Ok gpa
       /\ gpa == Spec.weightedPointsJava Spec.fourCoursesJava
                 / inject_Z (Spec.creditSumJava Spec.fourCoursesJava).
Proof.
  destruct C3_semester_gpa as (_ & Hjs & _ & _ & Hjava).
  split; [| split].
  - apply (Hjs (JS.mkCourse "Programming in Java" 3 88)). reflexivity.
  - apply (Hjs (JS.mkCourse "Seminar" 0 70) []). discriminate.
  - destruct (Hjava (Java.mkCourse "Programming in Java" 3 88)
                    (tl Spec.fourCoursesJava)) as (gpa & Heq & Hpos & _).
    + repeat constructor; cbn; lra.
    + cbn. lia.
    + exists gpa. split; [exact Heq | apply Hpos; reflexivity].
Defined.

(** ** Cumulative CGPA *)

Lemma calculateCumulativeCGPA_blend (prevCGPA prevCredits currentGPA currentCredits : Q) :
  (0 < prevCredits + currentCredits ->
   JS.calculateCumulativeCGPA prevCGPA prevCredits currentGPA currentCredits
   = (prevCGPA * prevCredits + currentGPA * currentCredits)
     / (prevCredits + currentCredits))
  /\ (~ 0 < prevCredits + currentCredits ->
      JS.calculateCumulativeCGPA prevCGPA prevCredits currentGPA currentCredits
      = 0.0).
Proof.
  unfold JS.calculateCumulativeCGPA. cbv zeta.
  destruct (gtb_reflect (prevCredits + currentCredits) 0) as [Hpos | Hnpos];
    split; intros Hsum; try reflexivity; contradiction.
Qed.

Lemma Java_calculateCumulativeCGPA_blend
    (previousCGPA : Q) (previousCredits : Z) (currentGPA : Q) (currentCredits : Z) :
  (0 <= previousCredits)%Z -> (0 <= currentCredits)%Z ->
  (previousCredits + currentCredits < 2 ^ 31)%Z ->
  0 <= previousCGPA <= 4 ->
  ((0 < previousCredits + currentCredits)%Z ->
   Java.calculateCumulativeCGPA previousCGPA previousCredits
                                currentGPA currentCredits
   = Java.Ok ((previousCGPA * inject_Z previousCredits
               + currentGPA * inject_Z currentCredits)
              / inject_Z (previousCredits + currentCredits)))
  /\ (~ (0 < previousCredits + currentCredits)%Z ->
      Java.calculateCumulativeCGPA previousCGPA previousCredits
                                   currentGPA currentCredits
      = Java.Ok 0.0).
Proof.
  intros Hprev Hcur Hsum [Hlo Hhi].
  unfold Java.calculateCumulativeCGPA. cbv zeta.
  destruct (Z.ltb_spec previousCredits 0) as [Hneg | _]; [lia |].
  destruct (Z.ltb_spec currentCredits 0) as [Hneg | _]; [lia |].
  cbn [orb]. cmp.
  unfold Java.int_add. rewrite wrap32_small by lia.
  unfold Java.int_to_double.
  destruct (Z.ltb_spec 0 (previousCredits + currentCredits)) as [Hpos | Hnpos];
    split; intros Hs; try reflexivity; lia.
Qed.

Lemma Java_calculateCumulativeCGPA_throws
    (previousCGPA : Q) (previousCredits : Z) (currentGPA : Q) (currentCredits : Z) :
  ((previousCredits < 0 \/ currentCredits < 0)%Z ->
   Java.calculateCumulativeCGPA previousCGPA previousCredits
                                currentGPA currentCredits
   = Java.IllegalArgumentException "Credits cannot be negative")
  /\ ((0 <= previousCredits)%Z -> (0 <= currentCredits)%Z ->
      previousCGPA < 0 \/ 4 < previousCGPA ->
      Java.calculateCumulativeCGPA previousCGPA previousCredits
                                   currentGPA currentCredits
      = Java.IllegalArgumentException "CGPA must be between 0.0 and 4.0").
Proof.
  unfold Java.calculateCumulativeCGPA. cbv zeta. split.
  - intros Hneg.
    destruct (Z.ltb_spec previousCredits 0) as [_ | Hprev]; [reflexivity |].
    destruct (Z.ltb_spec currentCredits 0) as [_ | Hcur]; [reflexivity |].
    lia.
  - intros Hprev Hcur Hout.
    destruct (Z.ltb_spec previousCredits 0) as [Hneg | _]; [lia |].
    destruct (Z.ltb_spec currentCredits 0) as [Hneg | _]; [lia |].
    cbn [orb].
    destruct (ltb_reflect previousCGPA 0.0) as [_ | Hnlt]; [reflexivity |].
    destruct (gtb_reflect previousCGPA 4.0) as [_ | Hngt]; [reflexivity |].
    lra.
Qed.

(** C4.  In the web calculator, for all arguments, the cumulative
    CGPA is (prevCgpa * prevCredits + currentGpa * currentCredits) /
    (prevCredits + currentCredits) when the credit sum is positive and 0.0
    otherwise.  The Java backend returns the same for non-negative credits
    whose sum fits an [int] and a previous CGPA in [0, 4].  For the
    arguments (3.45, 36, 3.875, 12) the result equals
    (3.45 * 36 + 3.875 * 12) / 48 = 3.55625, which is within 0.00005 of
    3.5563. *)
Theorem C4_cumulative_cgpa :
  (forall prevCGPA prevCredits currentGPA currentCredits : Q,
      (0 < prevCredits + currentCredits ->
       JS.calculateCumulativeCGPA prevCGPA prevCredits currentGPA currentCredits
       = (prevCGPA * prevCredits + currentGPA * currentCredits)
         / (prevCredits + currentCredits))
      /\ (~ 0 < prevCredits + currentCredits ->
          JS.calculateCumulativeCGPA prevCGPA prevCredits
                                     currentGPA currentCredits
          = 0.0))
  /\ (forall (previousCGPA : Q) (previousCredits : Z)
             (currentGPA : Q) (currentCredits : Z),
      (0 <= previousCredits)%Z -> (0 <= currentCredits)%Z ->
      (previousCredits + currentCredits < 2 ^ 31)%Z ->
      0 <= previousCGPA <= 4 ->
      ((0 < previousCredits + currentCredits)%Z ->
       Java.calculateCumulativeCGPA previousCGPA previousCredits
                                    currentGPA currentCredits
       = Java.Ok ((previousCGPA * inject_Z previousCredits
                   + currentGPA * inject_Z currentCredits)
                  / inject_Z (previousCredits + currentCredits)))
      /\ (~ (0 < previousCredits + currentCredits)%Z ->
          Java.calculateCumulativeCGPA previousCGPA previousCredits
                                       currentGPA currentCredits
          = Java.Ok 0.0))
  /\ JS.calculateCumulativeCGPA 3.45 36 3.875 12
     == (3.45 * 36 + 3.875 * 12) / 48
  /\ JS.calculateCumulativeCGPA 3.45 36 3.875 12 == 3.55625
  /\ Spec.dist (JS.calculateCumulativeCGPA 3.45 36 3.875 12) 3.5563 <= 0.00005.
Proof.
  split; [exact calculateCumulativeCGPA_blend |].
  split; [exact Java_calculateCumulativeCGPA_blend |].
  repeat apply conj; vm_compute; congruence.
Qed.

Lemma C4_cumulative_cgpa_witness :
  JS.calculateCumulativeCGPA 3.45 36 3.875 12
  = (3.45 * 36 + 3.875 * 12) / (36 + 12)
  /\ JS.calculateCumulativeCGPA 3.45 0 3.875 0 = 0.0
  /\ Java.calculateCumulativeCGPA 3.45 36 3.875 12
     = Java.Ok ((3.45 * inject_Z 36 + 3.875 * inject_Z 12)
                / inject_Z (36 + 12))
  /\ Java.calculateCumulativeCGPA 3.45 0 3.875 0 = Java.Ok 0.0.
Proof.
  destruct C4_cumulative_cgpa as (Hjs & Hjava & _).
  split; [| split; [| split]].
  - apply (Hjs 3.45 36 3.875 12). reflexivity.
  - apply (Hjs 3.45 0 3.875 0). discriminate.
  - apply (Hjava 3.45 36%Z 3.875 12%Z);
      [discriminate | discriminate | reflexivity | cbn; lra | reflexivity].
  - apply (Hjava 3.45 0%Z 3.875 0%Z);
      [discriminate | discriminate | reflexivity | cbn; lra | discriminate].
Defined.

(** The result for (3.45, 36, 3.875, 12) is further than 0.000001 from
    3.5563; and the Java backend throws on the credits (-1, 5), whose sum
    is positive. *)
Lemma C4_counterexample :
  ~ Spec.dist (JS.calculateCumulativeCGPA 3.45 36 3.875 12) 3.5563 <= 0.000001
  /\ (0 < -1 + 5)%Z
  /\ Java.calculateCumulativeCGPA 3 (-1) 3 5
     = Java.IllegalArgumentException "Credits cannot be negative".
Proof.
  split; [| split; reflexivity].
  vm_compute. intros Hle. apply Hle. reflexivity.
Qed.

(** ** Range of the semester GPA *)

Lemma weighted_term_bounds (p w : Q) :
  0 <= p <= 4 -> 0 <= w -> 0 <= p * w <= 4 * w.
Proof.
  intros [Hp0 Hp4] Hw. split.
  - apply Qmult_le_0_compat; assumption.
  - apply Qmult_le_compat_r; assumption.
Qed.

Lemma sums_bounds (courses : list JS.Course) :
  Forall (fun c => 0 < JS.credits c) courses ->
  0 <= Spec.creditSum courses
  /\ 0 <= Spec.weightedPoints courses <= 4 * Spec.creditSum courses.
Proof.
  induction 1 as [| c rest Hc _ IH].
  - unfold Spec.creditSum, Spec.weightedPoints. cbn. lra.
  - rewrite weightedPoints_cons, creditSum_cons.
    pose proof (weighted_term_bounds _ (JS.credits c)
                  (marksToGrade_point_range (JS.marks c))) as Hterm.
    lra.
Qed.

Lemma creditSum_pos (c : JS.Course) (rest : list JS.Course) :
  Forall (fun c => 0 < JS.credits c) (c :: rest) ->
  0 < Spec.creditSum (c :: rest).
Proof.
  intros Hall. inversion Hall as [| ? ? Hc Hrest].
  rewrite creditSum_cons.
  pose proof (sums_bounds rest Hrest) as [Hsum _]. lra.
Qed.

Lemma quotient_bounds (num den : Q) :
  0 < den -> 0 <= num <= 4 * den -> 0 <= num / den <= 4.
Proof.
  intros Hden [Hlo Hhi]. split.
  - apply Qle_shift_div_l; [exact Hden | lra].
  - apply Qle_shift_div_r; [exact Hden | lra].
Qed.


(** ** The form handler *)

Lemma pushRow_valid (courses : list JS.Course) (row : JS.CourseRow) :
  Forall (fun c => 0 < JS.credits c /\ 0 <= JS.marks c <= 100) courses ->
  Forall (fun c => 0 < JS.credits c /\ 0 <= JS.marks c <= 100)
         (JS.pushRow courses row).
Proof.
  intros Hall. unfold JS.pushRow.
  destruct (JS.row_credits row) as [credits |]; [| exact Hall].
  destruct (JS.row_marks row) as [marks |]; [| exact Hall].
  destruct (negb (JS.row_title row =? "")%string); [| exact Hall].
  cbn [andb].
  destruct (gtb_reflect credits 0) as [Hc | _]; [| exact Hall].
  destruct (geb_reflect marks 0) as [Hm0 | _]; [| exact Hall].
  destruct (leb_reflect marks 100) as [Hm100 | _]; [| exact Hall].
  cbn [andb]. apply Forall_app. split; [exact Hall |].
  constructor; [| constructor]. cbn. repeat split; assumption.
Qed.

Lemma getAllCourses_valid (courseRows : list JS.CourseRow) :
  Forall (fun c => 0 < JS.credits c /\ 0 <= JS.marks c <= 100)
         (JS.getAllCourses courseRows).
Proof.
  unfold JS.getAllCourses.
  assert (Hgen : forall acc,
             Forall (fun c => 0 < JS.credits c /\ 0 <= JS.marks c <= 100) acc ->
             Forall (fun c => 0 < JS.credits c /\ 0 <= JS.marks c <= 100)
                    (fold_left JS.pushRow courseRows acc)).
  { induction courseRows as [| row rows IH]; intros acc Hacc; cbn [fold_left].
    - exact Hacc.
    - apply IH, pushRow_valid, Hacc. }
  apply Hgen. constructor.
Qed.

(** [calculateCGPA] stops with an alert on a CGPA outside [0, 4] and on
    negative completed credits. *)
Lemma calculateCGPA_rejects (currentCGPAField : option Q)
    (completedCreditsField : option Z) (courseRows : list JS.CourseRow) :
  let currentCGPA := JS.orZero currentCGPAField in
  let completedCredits :=
    JS.orZero (option_map inject_Z completedCreditsField) in
  (currentCGPA < 0 \/ 4 < currentCGPA ->
   JS.calculateCGPA currentCGPAField completedCreditsField courseRows
   = JS.Alert "Current CGPA must be between 0.0 and 4.0")
  /\ (0 <= currentCGPA <= 4 -> completedCredits < 0 ->
      JS.calculateCGPA currentCGPAField completedCreditsField courseRows
      = JS.Alert "Completed credits cannot be negative").
Proof.
  intros currentCGPA completedCredits. unfold JS.calculateCGPA. cbv zeta.
  fold currentCGPA. fold completedCredits. split.
  - intros Hout.
    destruct (ltb_reflect currentCGPA 0) as [_ | Hnlt]; [reflexivity |].
    destruct (gtb_reflect currentCGPA 4) as [_ | Hngt]; [reflexivity |].
    lra.
  - intros [Hlo Hhi] Hneg.
    destruct (ltb_reflect currentCGPA 0) as [Hlt | _]; [lra |].
    destruct (gtb_reflect currentCGPA 4) as [Hgt | _]; [lra |].
    cbn [orb].
    destruct (ltb_reflect completedCredits 0) as [_ | Hnlt]; [reflexivity | lra].
Qed.

(** ** Argument checks of the cumulative CGPA *)

(** C5.  The Java backend throws IllegalArgumentException
    whenever prevCredits or currentCredits is negative and, the credits being
    non-negative, whenever prevCgpa is outside [0.0, 4.0]; so it throws on
    the credits (-1, 5) for every x and y.  The web calculator's
    [calculateCumulativeCGPA] checks nothing and returns the blend, on
    (x, -1, y, 5) the value (x * (-1) + y * 5) / 4; there the rejection is
    made by its caller [calculateCGPA], which stops with an alert when the
    current CGPA is outside [0, 4] and when the completed credits are
    negative. *)
Theorem C5_argument_checks :
  (forall (previousCGPA : Q) (previousCredits : Z)
          (currentGPA : Q) (currentCredits : Z),
      ((previousCredits < 0 \/ currentCredits < 0)%Z ->
       Java.calculateCumulativeCGPA previousCGPA previousCredits
                                    currentGPA currentCredits
       = Java.IllegalArgumentException "Credits cannot be negative")
      /\ ((0 <= previousCredits)%Z -> (0 <= currentCredits)%Z ->
          previousCGPA < 0 \/ 4 < previousCGPA ->
          Java.calculateCumulativeCGPA previousCGPA previousCredits
                                       currentGPA currentCredits
          = Java.IllegalArgumentException "CGPA must be between 0.0 and 4.0"))
  /\ (forall x y : Q,
      Java.calculateCumulativeCGPA x (-1) y 5
      = Java.IllegalArgumentException "Credits cannot be negative")
  /\ (forall x y : Q,
      JS.calculateCumulativeCGPA x (-1) y 5 == (x * (-1) + y * 5) / 4)
  /\ (forall (currentCGPAField : option Q) (completedCreditsField : option Z)
             (courseRows : list JS.CourseRow),
      let currentCGPA := JS.orZero currentCGPAField in
      let completedCredits :=
        JS.orZero (option_map inject_Z completedCreditsField) in
      (currentCGPA < 0 \/ 4 < currentCGPA ->
       JS.calculateCGPA currentCGPAField completedCreditsField courseRows
       = JS.Alert "Current CGPA must be between 0.0 and 4.0")
      /\ (0 <= currentCGPA <= 4 -> completedCredits < 0 ->
          JS.calculateCGPA currentCGPAField completedCreditsField courseRows
          = JS.Alert "Completed credits cannot be negative")).
Proof.
  split; [exact Java_calculateCumulativeCGPA_throws |].
  split; [intros x y; reflexivity |].
  split; [| exact calculateCGPA_rejects].
  intros x y.
  destruct (calculateCumulativeCGPA_blend x (-1) y 5) as [Hblend _].
  rewrite Hblend by reflexivity.
  unfold Qdiv. apply Qmult_comp; reflexivity.
Qed.

Lemma C5_argument_checks_witness :
  Java.calculateCumulativeCGPA 3.45 (-1) 3.875 5
  = Java.IllegalArgumentException "Credits cannot be negative"
  /\ Java.calculateCumulativeCGPA 4.5 36 3.875 12
     = Java.IllegalArgumentException "CGPA must be between 0.0 and 4.0"
  /\ JS.calculateCGPA (Some 4.5) (Some 36%Z) []
     = JS.Alert "Current CGPA must be between 0.0 and 4.0"
  /\ JS.calculateCGPA (Some 3.45) (Some (-1)%Z) []
     = JS.Alert "Completed credits cannot be negative".
Proof.
  destruct C5_argument_checks as (Hjava & _ & _ & Hjs).
  split; [| split; [| split]].
  - apply (Hjava 3.45 (-1)%Z 3.875 5%Z). left. reflexivity.
  - apply (Hjava 4.5 36%Z 3.875 12%Z); [discriminate | discriminate |].
    right. reflexivity.
  - apply (Hjs (Some 4.5) (Some 36%Z) []). right. reflexivity.
  - apply (Hjs (Some 3.45) (Some (-1)%Z) []); [cbn; lra | reflexivity].
Defined.

(** The web calculator returns a blended value on negative credits and on
    a previous CGPA above 4. *)
Lemma C5_counterexample :
  JS.calculateCumulativeCGPA 3 (-1) 3 5 == 3
  /\ JS.calculateCumulativeCGPA 5 3 3 3 == 4.
Proof. split; reflexivity. Qed.

(** ** Academic standing *)

Ltac status_case :=
  unfold Spec.statusIs, JS.getAcademicStatus, Java.getAcademicStatus;
  cmp; split; reflexivity.

Lemma status_bands (cgpa : Q) :
  0 <= cgpa <= 4 ->
  (3.75 <= cgpa -> Spec.statusIs cgpa "Dean's List")
  /\ (3.50 <= cgpa < 3.75 -> Spec.statusIs cgpa "Excellent Standing")
  /\ (3.00 <= cgpa < 3.50 -> Spec.statusIs cgpa "Good Standing")
  /\ (2.50 <= cgpa < 3.00 -> Spec.statusIs cgpa "Satisfactory")
  /\ (2.00 <= cgpa < 2.50 -> Spec.statusIs cgpa "Warning")
  /\ (cgpa < 2.00 -> Spec.statusIs cgpa "Academic Probation").
Proof.
  intros [H0 H4]. repeat apply conj; intros Hband; status_case.
Qed.

(** The label is the one the band gives. *)
Ltac pick_label Hband :=
  let Hjs := fresh "Hjs" in
  let Hjava := fresh "Hjava" in
  destruct Hband as [Hjs Hjava]; rewrite Hjava;
  split; [cbn; tauto | split; [exact Hjs | exact Hjava]].

Lemma status_unique (cgpa : Q) :
  0 <= cgpa <= 4 ->
  exists! label, In label Spec.standingLabels /\ Spec.statusIs cgpa label.
Proof.
  intros Hrange.
  exists (Java.getAcademicStatus cgpa). split.
  - destruct (status_bands cgpa Hrange) as (Hd & He & Hg & Hs & Hw & Hp).
    destruct (Qlt_le_dec cgpa 2.00) as [H2 | H2];
      [specialize (Hp H2); pick_label Hp |].
    destruct (Qlt_le_dec cgpa 2.50) as [H25 | H25];
      [specialize (Hw (conj H2 H25)); pick_label Hw |].
    destruct (Qlt_le_dec cgpa 3.00) as [H3 | H3];
      [specialize (Hs (conj H25 H3)); pick_label Hs |].
    destruct (Qlt_le_dec cgpa 3.50) as [H35 | H35];
      [specialize (Hg (conj H3 H35)); pick_label Hg |].
    destruct (Qlt_le_dec cgpa 3.75) as [H375 | H375];
      [specialize (He (conj H35 H375)); pick_label He |].
    specialize (Hd H375). pick_label Hd.
  - intros label [_ [_ Hjava]]. exact Hjava.
Qed.

(** C6.  A CGPA in [0, 4] gets exactly one standing label, that of the first
    band it reaches from the top: Dean's List from 3.75 up, Excellent
    Standing on [3.50, 3.75), Good Standing on [3.00, 3.50), Satisfactory on
    [2.50, 3.00), Warning on [2.00, 2.50) and Academic Probation below 2.00.
    So 3.75 is Dean's List, 3.749999 Excellent Standing, 2.0 Warning and
    1.999999 Academic Probation. *)
Theorem C6_status_bands :
  (forall cgpa : Q,
      0 <= cgpa <= 4 ->
      (exists! label, In label Spec.standingLabels /\ Spec.statusIs cgpa label)
      /\ (3.75 <= cgpa -> Spec.statusIs cgpa "Dean's List")
      /\ (3.50 <= cgpa < 3.75 -> Spec.statusIs cgpa "Excellent Standing")
      /\ (3.00 <= cgpa < 3.50 -> Spec.statusIs cgpa "Good Standing")
      /\ (2.50 <= cgpa < 3.00 -> Spec.statusIs cgpa "Satisfactory")
      /\ (2.00 <= cgpa < 2.50 -> Spec.statusIs cgpa "Warning")
      /\ (cgpa < 2.00 -> Spec.statusIs cgpa "Academic Probation"))
  /\ Spec.statusIs 3.75 "Dean's List"
  /\ Spec.statusIs 3.749999 "Excellent Standing"
  /\ Spec.statusIs 2.0 "Warning"
  /\ Spec.statusIs 1.999999 "Academic Probation".
Proof.
  split.
  - intros cgpa Hrange.
    split; [exact (status_unique cgpa Hrange) | exact (status_bands cgpa Hrange)].
  - repeat split; reflexivity.
Qed.

Lemma C6_status_bands_witness :
  Spec.statusIs 3.2 "Good Standing" /\ Spec.statusIs 4 "Dean's List"
  /\ Spec.statusIs 0 "Academic Probation".
Proof.
  destruct C6_status_bands as [Hbands _].
  split; [| split].
  - assert (Hrange : 0 <= 3.2 <= 4) by lra.
    destruct (Hbands 3.2 Hrange) as (_ & _ & _ & Hgood & _).
    apply Hgood. lra.
  - assert (Hrange : 0 <= 4 <= 4) by lra.
    destruct (Hbands 4 Hrange) as (_ & Hdean & _).
    apply Hdean. lra.
  - assert (Hrange : 0 <= 0 <= 4) by lra.
    destruct (Hbands 0 Hrange) as (_ & _ & _ & _ & _ & _ & Hprob).
    apply Hprob. lra.
Defined.

(** C7.  For every CGPA outside [0.0, 4.0] the Java backend
    returns the label Invalid CGPA, which is none of the six regular labels.
    The web calculator has no such label: it returns Dean's List above 4
    and Academic Probation below 0. *)
Theorem C7_out_of_range_status (cgpa : Q) :
  cgpa < 0 \/ 4 < cgpa ->
  (Java.getAcademicStatus cgpa = "Invalid CGPA"
   /\ ~ In "Invalid CGPA" Spec.standingLabels)
  /\ (4 < cgpa -> Spec.labelOf (JS.getAcademicStatus cgpa) = Some "Dean's List")
  /\ (cgpa < 0 ->
      Spec.labelOf (JS.getAcademicStatus cgpa) = Some "Academic Probation").
Proof.
  intros Hout. split; [split |].
  - unfold Java.getAcademicStatus.
    destruct (ltb_reflect cgpa 0.0) as [_ | Hnlt]; [reflexivity |].
    destruct (gtb_reflect cgpa 4.0) as [_ | Hngt]; [reflexivity | lra].
  - cbn [In Spec.standingLabels].
    intros Hin.
    repeat (destruct Hin as [Hin | Hin]; [discriminate Hin |]).
    exact Hin.
  - split.
    + intros Hbig. unfold JS.getAcademicStatus. cmp. reflexivity.
    + intros Hneg. unfold JS.getAcademicStatus. cmp. reflexivity.
Qed.

Lemma C7_out_of_range_status_witness :
  (Java.getAcademicStatus 4.5 = "Invalid CGPA"
   /\ Spec.labelOf (JS.getAcademicStatus 4.5) = Some "Dean's List")
  /\ (Java.getAcademicStatus (-0.5) = "Invalid CGPA"
      /\ Spec.labelOf (JS.getAcademicStatus (-0.5))
         = Some "Academic Probation").
Proof.
  assert (Hhigh : 4.5 < 0 \/ 4 < 4.5) by (right; reflexivity).
  assert (Hlow : -0.5 < 0 \/ 4 < -0.5) by (left; reflexivity).
  destruct (C7_out_of_range_status 4.5 Hhigh) as ((Hjava & _) & Hdean & _).
  destruct (C7_out_of_range_status (-0.5) Hlow)
    as ((Hjava' & _) & _ & Hprobation).
  split; [split; [exact Hjava | apply Hdean; reflexivity] |].
  split; [exact Hjava' | apply Hprobation; reflexivity].
Defined.

(** The web calculator labels 4.5 Dean's List and -0.5 Academic
    Probation. *)
Lemma C7_counterexample :
  Spec.labelOf (JS.getAcademicStatus 4.5) = Some "Dean's List"
  /\ Spec.labelOf (JS.getAcademicStatus (-0.5)) = Some "Academic Probation".
Proof. split; reflexivity. Qed.

(** ** The regression example *)

(** C8.  The semester GPA of the four courses with credits 3 and
    marks 88, 92, 85 and 90 is 3.875: the grades are A, A+, A and A+, and
    (3.75 + 4.00 + 3.75 + 4.00) / 4 = 3.875. *)
Theorem C8_four_courses :
  JS.calculateSemesterGPA Spec.fourCourses == 3.875
  /\ exists gpa, Java.calculateSemesterGPA (Some Spec.fourCoursesJava)
                 = Java.Ok gpa
                 /\ gpa == 3.875.
Proof.
  split; [reflexivity |].
  eexists. split; reflexivity.
Qed.

(** The result is 3.875, at distance 0.125 from 3.75. *)
Lemma C8_counterexample :
  JS.calculateSemesterGPA Spec.fourCourses == 3.875
  /\ Spec.dist (JS.calculateSemesterGPA Spec.fourCourses) 3.75 == 0.125
  /\ ~ Spec.dist (JS.calculateSemesterGPA Spec.fourCourses) 3.75 <= 0.000001.
Proof.
  split; [reflexivity | split; [reflexivity |]].
  intros Hle. vm_compute in Hle. apply Hle. reflexivity.
Qed.

(** ** Marks outside the range *)


Lemma weightedPoints_app (xs ys : list JS.Course) :
  Spec.weightedPoints (xs ++ ys)%list
  == Spec.weightedPoints xs + Spec.weightedPoints ys.
Proof.
  unfold Spec.weightedPoints. rewrite map_app. apply total_app.
Qed.

Lemma creditSum_app (xs ys : list JS.Course) :
  Spec.creditSum (xs ++ ys)%list == Spec.creditSum xs + Spec.creditSum ys.
Proof.
  unfold Spec.creditSum. rewrite map_app. apply total_app.
Qed.


Lemma calculateSemesterGPA_formula (courses : list JS.Course) :
  courses <> [] -> 0 < Spec.creditSum courses ->
  JS.calculateSemesterGPA courses
  == Spec.weightedPoints courses / Spec.creditSum courses.
Proof.
  destruct courses as [| c rest]; [intros Hne; now contradiction Hne |].
  intros _. apply calculateSemesterGPA_cons.
Qed.

Lemma Forall_positive_nonempty (courses : list JS.Course) :
  courses <> [] -> Forall (fun c => 0 < JS.credits c) courses ->
  0 < Spec.creditSum courses.
Proof.
  destruct courses as [| c rest]; [intros Hne; now contradiction Hne |].
  intros _. apply creditSum_pos.
Qed.



(** ** The semester GPA of courses with whole credits *)










(** * Further properties of the code *)

(** ** The two grade lookups compared *)

(** Marks of [0, 100] outside the gaps lie in a band of the table. *)
Lemma band_of_marks (marks : Q) :
  0 <= marks <= 100 -> ~ Spec.inGap marks ->
  exists lo hi letter pt,
    In (lo, hi, letter, pt) Spec.bands /\ lo <= marks <= hi.
Proof.
  intros [H0 H100] Hgap. unfold Spec.inGap in Hgap. unfold Spec.bands.
  destruct (Qlt_le_dec marks 50);
    [exists 0, 49, "F", 0.00; split; [cbn; tauto | lra] |].
  destruct (Qlt_le_dec marks 60);
    [exists 50, 59, "D", 2.25; split; [cbn; tauto | lra] |].
  destruct (Qlt_le_dec marks 65);
    [exists 60, 64, "D+", 2.50; split; [cbn; tauto | lra] |].
  destruct (Qlt_le_dec marks 70);
    [exists 65, 69, "C", 2.75; split; [cbn; tauto | lra] |].
  destruct (Qlt_le_dec marks 75);
    [exists 70, 74, "C+", 3.00; split; [cbn; tauto | lra] |].
  destruct (Qlt_le_dec marks 80);
    [exists 75, 79, "B", 3.25; split; [cbn; tauto | lra] |].
  destruct (Qlt_le_dec marks 85);
    [exists 80, 84, "B+", 3.50; split; [cbn; tauto | lra] |].
  destruct (Qlt_le_dec marks 90);
    [exists 85, 89, "A", 3.75; split; [cbn; tauto | lra] |].
  exists 90, 100, "A+", 4.00. split; [cbn; tauto | lra].
Qed.

(** Marks of [0, 100] lie in a band of the table extended up to the next
    band. *)
Lemma floor_band_of_marks (marks : Q) :
  0 <= marks <= 100 ->
  exists lo hi letter pt,
    In (lo, hi, letter, pt) Spec.bands /\ lo <= marks /\ marks < hi + 1.
Proof.
  intros [H0 H100]. unfold Spec.bands.
  destruct (Qlt_le_dec marks 50);
    [exists 0, 49, "F", 0.00; split; [cbn; tauto | lra] |].
  destruct (Qlt_le_dec marks 60);
    [exists 50, 59, "D", 2.25; split; [cbn; tauto | lra] |].
  destruct (Qlt_le_dec marks 65);
    [exists 60, 64, "D+", 2.50; split; [cbn; tauto | lra] |].
  destruct (Qlt_le_dec marks 70);
    [exists 65, 69, "C", 2.75; split; [cbn; tauto | lra] |].
  destruct (Qlt_le_dec marks 75);
    [exists 70, 74, "C+", 3.00; split; [cbn; tauto | lra] |].
  destruct (Qlt_le_dec marks 80);
    [exists 75, 79, "B", 3.25; split; [cbn; tauto | lra] |].
  destruct (Qlt_le_dec marks 85);
    [exists 80, 84, "B+", 3.50; split; [cbn; tauto | lra] |].
  destruct (Qlt_le_dec marks 90);
    [exists 85, 89, "A", 3.75; split; [cbn; tauto | lra] |].
  exists 90, 100, "A+", 4.00. split; [cbn; tauto | lra].
Qed.

Lemma integer_not_inGap (z : Z) : ~ Spec.inGap (inject_Z z).
Proof.
  assert (Hint : forall n : Z, inject_Z n < inject_Z z ->
                               inject_Z z < inject_Z (n + 1) -> False).
  { intros n Hlt1 Hlt2. rewrite <- Zlt_Qlt in Hlt1, Hlt2. lia. }
  unfold Spec.inGap. intros Hgap.
  repeat (destruct Hgap as [[Ha Hb] | Hgap];
          [ match type of Ha with
            | ?q < _ =>
                let n := eval cbv in (Qnum q) in
                exact (Hint n Ha Hb)
            end |]).
  destruct Hgap as [Ha Hb]. exact (Hint 89%Z Ha Hb).
Qed.

Lemma lookups_agree_aux (marks : Q) :
  0 <= marks <= 100 -> ~ Spec.inGap marks ->
  exists g, Java.marksToGrade marks = Java.Ok g
            /\ Java.letterGrade g = JS.grade (JS.marksToGrade marks)
            /\ Java.gradePoint g == JS.point (JS.marksToGrade marks).
Proof.
  intros Hrange Hgap.
  destruct (band_of_marks marks Hrange Hgap)
    as (lo & hi & letter & pt & Hin & Hlo & Hhi).
  destruct (marksToGrade_in_band lo hi letter pt marks Hin (conj Hlo Hhi))
    as [Hletter Hpoint].
  destruct (Java_marksToGrade_in_band lo hi letter pt marks Hin Hlo)
    as (g & Hg & Hjletter & Hjpoint); [lra | lra |].
  exists g. split; [exact Hg |]. split; [congruence |].
  rewrite Hjpoint, Hpoint. reflexivity.
Qed.

(** X1.  On marks of [0, 100] that lie in a band of the web scale -- all
    integer marks among them -- the web lookup and the Java lookup return
    the same letter and the same point. *)
Theorem lookups_agree (marks : Q) :
  0 <= marks <= 100 ->
  ~ Spec.inGap marks \/ (exists z : Z, marks = inject_Z z) ->
  exists g, Java.marksToGrade marks = Java.Ok g
            /\ Java.letterGrade g = JS.grade (JS.marksToGrade marks)
            /\ Java.gradePoint g == JS.point (JS.marksToGrade marks).
Proof.
  intros Hrange Hband. apply lookups_agree_aux; [exact Hrange |].
  destruct Hband as [Hgap | [z ->]]; [exact Hgap | apply integer_not_inGap].
Qed.

Lemma lookups_agree_witness :
  exists g, Java.marksToGrade 88 = Java.Ok g
            /\ Java.letterGrade g = JS.grade (JS.marksToGrade 88)
            /\ Java.gradePoint g == JS.point (JS.marksToGrade 88).
Proof.
  apply (lookups_agree 88).
  - split; discriminate.
  - right. exists 88%Z. reflexivity.
Defined.

Lemma fallback_aux (marks : Q) :
  0 <= marks <= 100 ->
  (JS.scanBands JS.GRADING_SCALE marks = None <-> Spec.inGap marks)
  /\ (Spec.inGap marks -> JS.marksToGrade marks = JS.mkGrade "F" 0.0).
Proof.
  intros Hrange.
  pose proof (scanBands_gaps marks Hrange) as Hiff.
  fold (Spec.inGap marks) in Hiff.
  split; [exact Hiff |].
  destruct Hrange as [H0 H100].
  intros Hgap. apply Hiff in Hgap.
  unfold JS.marksToGrade. cmp. rewrite Hgap. reflexivity.
Qed.

Lemma gap_or_band (marks : Q) :
  0 <= marks <= 100 ->
  Spec.inGap marks
  \/ exists lo hi letter pt,
       In (lo, hi, letter, pt) Spec.bands /\ lo <= marks <= hi.
Proof.
  intros Hrange.
  destruct (fallback_aux marks Hrange) as [Hiff _].
  destruct (JS.scanBands JS.GRADING_SCALE marks) as [g |] eqn:Hscan.
  - right. apply band_of_marks; [exact Hrange |].
    intros Hgap. apply Hiff in Hgap. discriminate Hgap.
  - left. apply Hiff. reflexivity.
Qed.

(** X2.  For marks of [0, 100] the loop of the web lookup ends without a
    match exactly on the open intervals between the bands, (49, 50),
    (59, 60), (64, 65), (69, 70), (74, 75), (79, 80), (84, 85) and (89, 90),
    and there the lookup returns F with 0.0 points whatever the
    neighbouring bands are. *)
Theorem fallback_exactly_in_gaps (marks : Q) :
  0 <= marks <= 100 ->
  (JS.scanBands JS.GRADING_SCALE marks = None <-> Spec.inGap marks)
  /\ (Spec.inGap marks -> JS.marksToGrade marks = JS.mkGrade "F" 0.0)
  /\ (~ Spec.inGap marks ->
      exists b, In b JS.GRADING_SCALE /\ Spec.inBand marks b
                /\ JS.marksToGrade marks
                   = JS.mkGrade (JS.band_grade b) (JS.band_point b)).
Proof.
  intros Hrange.
  pose proof (scanBands_gaps marks Hrange) as Hiff.
  fold (Spec.inGap marks) in Hiff.
  split; [exact Hiff |].
  destruct Hrange as [H0 H100].
  split.
  - intros Hgap. apply Hiff in Hgap.
    unfold JS.marksToGrade. cmp. rewrite Hgap. reflexivity.
  - intros Hgap. unfold JS.marksToGrade. cmp.
    destruct (JS.scanBands JS.GRADING_SCALE marks) as [g |] eqn:Hscan.
    + destruct (scanBands_Some marks _ g Hscan) as (b & Hin & Hb & ->).
      exists b. repeat split; try assumption; apply Hb.
    + exfalso. apply Hgap, Hiff. reflexivity.
Qed.

Lemma fallback_exactly_in_gaps_witness :
  JS.marksToGrade 64.5 = JS.mkGrade "F" 0.0.
Proof.
  assert (Hrange : 0 <= 64.5 <= 100) by (split; discriminate).
  destruct (fallback_exactly_in_gaps 64.5 Hrange) as (_ & Hgap & _).
  apply Hgap. unfold Spec.inGap.
  right. right. left. split; reflexivity.
Defined.

(** ** The Java lookup *)

Lemma floorEntry_Some (m : Java.TreeMap) (key : Z) (e : Z * Java.GradeInfo) :
  Java.floorEntry m key = Some e -> In e m /\ (fst e <= key)%Z.
Proof.
  revert e. induction m as [| [k v] rest IH]; intros e; cbn [Java.floorEntry].
  - discriminate.
  - destruct (Z.leb_spec k key) as [Hle | Hgt]; [| discriminate].
    destruct (Java.floorEntry rest key) as [e' |].
    + intros [= <-]. destruct (IH e' eq_refl) as [Hin Hkey].
      split; [right; exact Hin | exact Hkey].
    + intros [= <-]. split; [left; reflexivity | exact Hle].
Qed.

Lemma Java_lookup_entry (marks : Q) :
  0 <= marks <= 100 ->
  exists key g,
    Java.floorEntry Java.GRADE_SCALE (Java.double_to_int marks) = Some (key, g)
    /\ In (key, g) Java.GRADE_SCALE
    /\ inject_Z key <= marks
    /\ Java.marksToGrade marks = Java.Ok g.
Proof.
  intros Hrange.
  destruct (Java_floorEntry_found marks Hrange) as ([key g] & Hfloor).
  destruct (floorEntry_Some _ _ _ Hfloor) as [Hin Hkey].
  exists key, g. split; [exact Hfloor |]. split; [exact Hin |].
  destruct Hrange as [H0 H100].
  split; [apply (double_to_int_floor marks key H0 H100); exact Hkey |].
  unfold Java.marksToGrade. cmp. rewrite Hfloor. reflexivity.
Qed.

(** X3.  For marks of [0, 100] the Java lookup never throws and never takes
    its null branch: [floorEntry] finds an entry of [GRADE_SCALE] whose key
    is at most the marks, and the lookup returns that entry's grade. *)
Theorem Java_lookup_finds_entry (marks : Q) :
  0 <= marks <= 100 ->
  exists key g,
    Java.floorEntry Java.GRADE_SCALE (Java.double_to_int marks) = Some (key, g)
    /\ In (key, g) Java.GRADE_SCALE
    /\ inject_Z key <= marks
    /\ Java.marksToGrade marks = Java.Ok g.
Proof. exact (Java_lookup_entry marks). Qed.

Lemma Java_lookup_finds_entry_witness :
  exists key g,
    Java.floorEntry Java.GRADE_SCALE (Java.double_to_int 72.5) = Some (key, g)
    /\ In (key, g) Java.GRADE_SCALE
    /\ inject_Z key <= 72.5
    /\ Java.marksToGrade 72.5 = Java.Ok g.
Proof.
  apply (Java_lookup_finds_entry 72.5). split; discriminate.
Defined.

Lemma double_to_int_Qfloor (marks : Q) :
  0 <= marks <= 100 -> Java.double_to_int marks = Qfloor marks.
Proof.
  intros [H0 H100].
  apply Z.le_antisymm.
  - assert (Hle : inject_Z (Java.double_to_int marks) <= marks)
      by (apply (double_to_int_floor marks _ H0 H100); lia).
    apply Qfloor_resp_le in Hle. rewrite Qfloor_Z in Hle. exact Hle.
  - apply (double_to_int_floor marks _ H0 H100). apply Qfloor_le.
Qed.

(** X4.  The Java lookup drops the fraction of the marks: marks of [0, 100]
    get the grade of their integer part. *)
Theorem Java_lookup_floor (marks : Q) :
  0 <= marks <= 100 ->
  Java.marksToGrade marks = Java.marksToGrade (inject_Z (Qfloor marks)).
Proof.
  intros Hrange.
  assert (Hfloor : 0 <= inject_Z (Qfloor marks) <= 100).
  { destruct Hrange as [H0 H100]. split.
    - apply Qfloor_resp_le in H0. change 0 with (inject_Z 0).
      rewrite <- Zle_Qle. exact H0.
    - apply Qle_trans with marks; [apply Qfloor_le | exact H100]. }
  pose proof (double_to_int_Qfloor marks Hrange) as Hcast.
  pose proof (double_to_int_Qfloor _ Hfloor) as Hcast'.
  rewrite Qfloor_Z in Hcast'.
  unfold Java.marksToGrade.
  destruct Hrange as [H0 H100]. destruct Hfloor as [Hf0 Hf100].
  cmp. rewrite Hcast, Hcast'. reflexivity.
Qed.

Lemma Java_lookup_floor_witness :
  Java.marksToGrade 89.5 = Java.marksToGrade (inject_Z (Qfloor 89.5)).
Proof.
  apply (Java_lookup_floor 89.5). split; discriminate.
Defined.

(** X5.  The Java lookup is monotone: of two marks of [0, 100] the higher
    never gets the lower grade point. *)
Theorem Java_lookup_monotone (low high : Q) :
  0 <= low -> low <= high -> high <= 100 ->
  exists g g', Java.marksToGrade low = Java.Ok g
               /\ Java.marksToGrade high = Java.Ok g'
               /\ Java.gradePoint g <= Java.gradePoint g'.
Proof.
  intros H0 Hle H100.
  assert (Hlow : 0 <= low <= 100) by lra.
  assert (Hhigh : 0 <= high <= 100) by lra.
  destruct (floor_band_of_marks low Hlow)
    as (lo & hi & letter & pt & Hin & Hlo & Hhi).
  destruct (floor_band_of_marks high Hhigh)
    as (lo' & hi' & letter' & pt' & Hin' & Hlo' & Hhi').
  destruct (Java_marksToGrade_in_band _ _ _ _ low Hin Hlo Hhi)
    as (g & Hg & _ & Hpt); [lra |].
  destruct (Java_marksToGrade_in_band _ _ _ _ high Hin' Hlo' Hhi')
    as (g' & Hg' & _ & Hpt'); [lra |].
  exists g, g'. split; [exact Hg |]. split; [exact Hg' |].
  rewrite Hpt, Hpt'. clear Hg Hg' Hpt Hpt' g g'.
  unfold Spec.bands in Hin, Hin'. cbn [In] in Hin, Hin'.
  repeat (destruct Hin as [[= <- <- <- <-] | Hin];
          [ repeat (destruct Hin' as [[= <- <- <- <-] | Hin']; [lra |]);
            contradiction |]).
  contradiction.
Qed.

Lemma Java_lookup_monotone_witness :
  exists g g', Java.marksToGrade 64.5 = Java.Ok g
               /\ Java.marksToGrade 89.5 = Java.Ok g'
               /\ Java.gradePoint g <= Java.gradePoint g'.
Proof.
  apply (Java_lookup_monotone 64.5 89.5); discriminate.
Defined.

(** X21.  On marks of [0, 100] that lie in bands of the web scale (all
    integer marks do) the web lookup is monotone as well: the higher marks
    never get the lower grade point. *)
Theorem web_lookup_monotone (low high : Q) :
  0 <= low -> low <= high -> high <= 100 ->
  ~ Spec.inGap low -> ~ Spec.inGap high ->
  JS.point (JS.marksToGrade low) <= JS.point (JS.marksToGrade high).
Proof.
  intros H0 Hle H100 Hlow Hhigh.
  destruct (band_of_marks low ltac:(lra) Hlow)
    as (lo & hi & letter & pt & Hin & Hrange).
  destruct (band_of_marks high ltac:(lra) Hhigh)
    as (lo' & hi' & letter' & pt' & Hin' & Hrange').
  destruct (marksToGrade_in_band _ _ _ _ low Hin Hrange) as [_ Hpt].
  destruct (marksToGrade_in_band _ _ _ _ high Hin' Hrange') as [_ Hpt'].
  rewrite Hpt, Hpt'. clear Hpt Hpt'.
  destruct Hrange as [Hlo Hhi]. destruct Hrange' as [Hlo' Hhi'].
  unfold Spec.bands in Hin, Hin'. cbn [In] in Hin, Hin'.
  repeat (destruct Hin as [[= <- <- <- <-] | Hin];
          [ repeat (destruct Hin' as [[= <- <- <- <-] | Hin']; [lra |]);
            contradiction |]).
  contradiction.
Qed.

Lemma web_lookup_monotone_witness :
  JS.point (JS.marksToGrade 64) <= JS.point (JS.marksToGrade 90).
Proof.
  apply (web_lookup_monotone 64 90); try discriminate.
  - apply (integer_not_inGap 64).
  - apply (integer_not_inGap 90).
Defined.

(** ** The Java aggregation *)

Lemma marks_valid_or_not (courses : list Java.Course) :
  Forall (fun c => 0 <= Java.marks c <= 100) courses
  \/ Exists (fun c => Java.marks c < 0 \/ 100 < Java.marks c) courses.
Proof.
  induction courses as [| c rest [IH | IH]].
  - left. constructor.
  - destruct (Qlt_le_dec (Java.marks c) 0) as [Hneg | H0];
      [right; left; left; exact Hneg |].
    destruct (Qlt_le_dec 100 (Java.marks c)) as [Hbig | H100];
      [right; left; right; exact Hbig |].
    left. constructor; [split; assumption | exact IH].
  - right. right. exact IH.
Qed.

(** X6.  On a non-empty array the Java semester GPA throws
    IllegalArgumentException exactly when some course has marks outside
    [0, 100], and returns a number exactly when none has. *)
Theorem Java_semester_gpa_throws (c : Java.Course) (rest : list Java.Course) :
  let courses := c :: rest in
  (Java.calculateSemesterGPA (Some courses)
   = Java.IllegalArgumentException "Marks must be between 0 and 100"
   <-> Exists (fun c => Java.marks c < 0 \/ 100 < Java.marks c) courses)
  /\ ((exists gpa, Java.calculateSemesterGPA (Some courses) = Java.Ok gpa)
      <-> Forall (fun c => 0 <= Java.marks c <= 100) courses).
Proof.
  intros courses.
  assert (Hthrow : Exists (fun c => Java.marks c < 0 \/ 100 < Java.marks c) courses ->
                   Java.calculateSemesterGPA (Some courses)
                   = Java.IllegalArgumentException "Marks must be between 0 and 100").
  { intros Hex. unfold Java.calculateSemesterGPA. fold courses.
    rewrite (sumCourses_invalid courses Hex). reflexivity. }
  assert (Hok : Forall (fun c => 0 <= Java.marks c <= 100) courses ->
                exists gpa, Java.calculateSemesterGPA (Some courses) = Java.Ok gpa).
  { intros Hall. unfold Java.calculateSemesterGPA. fold courses.
    destruct (sumCourses_valid courses Hall 0.0 0%Z) as (tp & -> & _).
    cbn [Java.bind]. eexists. reflexivity. }
  split; split.
  - intros Heq. destruct (marks_valid_or_not courses) as [Hall | Hex];
      [| exact Hex].
    destruct (Hok Hall) as [gpa Hgpa]. congruence.
  - exact Hthrow.
  - intros [gpa Hgpa]. destruct (marks_valid_or_not courses) as [Hall | Hex];
      [exact Hall |].
    rewrite (Hthrow Hex) in Hgpa. discriminate Hgpa.
  - exact Hok.
Qed.

(** X7.  When the two non-negative credit arguments of the Java cumulative
    CGPA add up to 2^31 or more, their [int] sum wraps to a negative number
    and the method returns 0.0. *)
Theorem Java_cumulative_overflow
    (previousCGPA : Q) (previousCredits : Z) (currentGPA : Q) (currentCredits : Z) :
  (0 <= previousCredits < 2 ^ 31)%Z -> (0 <= currentCredits < 2 ^ 31)%Z ->
  (2 ^ 31 <= previousCredits + currentCredits)%Z ->
  0 <= previousCGPA <= 4 ->
  Java.calculateCumulativeCGPA previousCGPA previousCredits
                               currentGPA currentCredits
  = Java.Ok 0.0.
Proof.
  intros Hprev Hcur Hsum [Hlo Hhi].
  unfold Java.calculateCumulativeCGPA. cbv zeta.
  destruct (Z.ltb_spec previousCredits 0) as [Hneg | _]; [lia |].
  destruct (Z.ltb_spec currentCredits 0) as [Hneg | _]; [lia |].
  cbn [orb]. cmp.
  assert (Hwrap : Java.int_add previousCredits currentCredits
                  = (previousCredits + currentCredits - 2 ^ 32)%Z).
  { unfold Java.int_add, Java.wrap32.
    replace (previousCredits + currentCredits + 2 ^ 31)%Z
      with ((previousCredits + currentCredits - 2 ^ 31) + 1 * 2 ^ 32)%Z by lia.
    rewrite Z.mod_add by lia. rewrite Z.mod_small by lia. lia. }
  rewrite Hwrap.
  destruct (Z.ltb_spec 0 (previousCredits + currentCredits - 2 ^ 32))
    as [Hpos | _]; [lia | reflexivity].
Qed.

Lemma Java_cumulative_overflow_witness :
  Java.calculateCumulativeCGPA 3.45 2147483647 3.875 1 = Java.Ok 0.0.
Proof.
  apply Java_cumulative_overflow;
    [split; [discriminate | reflexivity] | split; [discriminate | reflexivity]
     | discriminate | split; discriminate].
Defined.

Lemma pointOfJava_range (marks : Q) :
  0 <= marks <= 100 -> 0 <= Spec.pointOfJava marks <= 4.
Proof.
  intros Hrange.
  destruct (Java_lookup_entry marks Hrange) as (key & g & _ & Hin & _ & Hg).
  unfold Spec.pointOfJava. rewrite Hg.
  rewrite GRADE_SCALE_sorted in Hin. cbn [In] in Hin.
  repeat (destruct Hin as [[= <- <-] | Hin]; [cbn; lra |]).
  contradiction.
Qed.

Lemma Java_sums_bounds (courses : list Java.Course) :
  Forall (fun c => 0 <= Java.marks c <= 100 /\ (0 < Java.credits c)%Z) courses ->
  (0 <= Spec.creditSumJava courses)%Z
  /\ 0 <= Spec.weightedPointsJava courses
     <= 4 * inject_Z (Spec.creditSumJava courses).
Proof.
  induction 1 as [| c rest [Hmarks Hcredits] _ [IHc IHp]].
  - unfold Spec.creditSumJava, Spec.weightedPointsJava, Spec.total.
    cbn [map fold_right]. unfold inject_Z. split; [lia | lra].
  - unfold Spec.creditSumJava, Spec.weightedPointsJava in *.
    cbn [map fold_right Spec.total]. fold (Spec.total).
    split; [lia |].
    rewrite inject_Z_plus.
    assert (Hw : 0 <= inject_Z (Java.credits c))
      by (change 0 with (inject_Z 0); rewrite <- Zle_Qle; lia).
    pose proof (weighted_term_bounds _ _ (pointOfJava_range _ Hmarks) Hw).
    unfold Spec.total in *. lra.
Qed.

(** X8.  When every course has marks of [0, 100] and positive credits and
    the credit sum fits an [int], the Java semester GPA is a number of
    [0, 4]. *)
Theorem Java_semester_gpa_range (courses : list Java.Course) :
  Forall (fun c => 0 <= Java.marks c <= 100 /\ (0 < Java.credits c)%Z) courses ->
  (Spec.creditSumJava courses < 2 ^ 31)%Z ->
  exists gpa, Java.calculateSemesterGPA (Some courses) = Java.Ok gpa
              /\ 0 <= gpa <= 4.
Proof.
  intros Hall Hsum.
  destruct (Java_sums_bounds courses Hall) as [Hcredits Hpoints].
  destruct courses as [| c rest]; [exists 0.0; split; [reflexivity | lra] |].
  assert (Hmarks : Forall (fun c => 0 <= Java.marks c <= 100) (c :: rest)).
  { revert Hall. apply Forall_impl. intros a [Ha _]. exact Ha. }
  destruct (Java_calculateSemesterGPA_valid c rest Hmarks) as (gpa & Hgpa & Hpos & _);
    [lia |].
  exists gpa. split; [exact Hgpa |].
  assert (Hpositive : (0 < Spec.creditSumJava (c :: rest))%Z).
  { inversion Hall as [| ? ? [_ Hc] Hrest].
    destruct (Java_sums_bounds rest Hrest) as [Hr _].
    unfold Spec.creditSumJava in *. cbn [map fold_right]. lia. }
  rewrite (Hpos Hpositive).
  apply quotient_bounds; [| exact Hpoints].
  change 0 with (inject_Z 0). rewrite <- Zlt_Qlt. exact Hpositive.
Qed.

Lemma Java_semester_gpa_range_witness :
  exists gpa, Java.calculateSemesterGPA (Some Spec.fourCoursesJava) = Java.Ok gpa
              /\ 0 <= gpa <= 4.
Proof.
  apply (Java_semester_gpa_range Spec.fourCoursesJava).
  - repeat constructor; discriminate.
  - reflexivity.
Defined.

Lemma Java_semester_gpa_throws_witness :
  Java.calculateSemesterGPA
    (Some (Java.mkCourse "Physics" 3 105 :: Spec.fourCoursesJava))
  = Java.IllegalArgumentException "Marks must be between 0 and 100".
Proof.
  apply (Java_semester_gpa_throws (Java.mkCourse "Physics" 3 105)
                                  Spec.fourCoursesJava).
  left. right. reflexivity.
Defined.

(** ** The web aggregation *)

(** The semester GPA as one expression of the two sums. *)
Lemma calculateSemesterGPA_sums (courses : list JS.Course) :
  courses <> [] ->
  JS.calculateSemesterGPA courses
  == (if Num.gtb (Spec.creditSum courses) 0
      then Spec.weightedPoints courses / Spec.creditSum courses
      else 0).
Proof.
  destruct courses as [| c rest]; [intros Hne; now contradiction Hne |].
  intros _. destruct (calculateSemesterGPA_cons c rest) as [Hpos Hnpos].
  cbv zeta in Hpos, Hnpos.
  destruct (gtb_reflect (Spec.creditSum (c :: rest)) 0) as [Hgt | Hngt].
  - apply Hpos. exact Hgt.
  - rewrite (Hnpos Hngt). reflexivity.
Qed.

Lemma total_Permutation (xs ys : list Q) :
  Permutation xs ys -> Spec.total xs == Spec.total ys.
Proof.
  unfold Spec.total.
  induction 1 as [| x xs ys _ IH | x y xs | xs ys zs _ IH1 _ IH2];
    cbn [fold_right].
  - reflexivity.
  - rewrite IH. reflexivity.
  - lra.
  - rewrite IH1. exact IH2.
Qed.

(** X9.  The semester GPA does not depend on the order of the courses. *)
Theorem semester_gpa_order (courses courses' : list JS.Course) :
  Permutation courses courses' ->
  JS.calculateSemesterGPA courses == JS.calculateSemesterGPA courses'.
Proof.
  intros Hperm.
  destruct courses as [| c rest].
  - apply Permutation_nil in Hperm. subst courses'. reflexivity.
  - assert (Hne' : courses' <> []).
    { intros ->. apply Permutation_sym, Permutation_nil in Hperm.
      discriminate Hperm. }
    assert (Hwp : Spec.weightedPoints (c :: rest) == Spec.weightedPoints courses').
    { unfold Spec.weightedPoints. apply total_Permutation.
      apply Permutation_map. exact Hperm. }
    assert (Hcs : Spec.creditSum (c :: rest) == Spec.creditSum courses').
    { unfold Spec.creditSum. apply total_Permutation.
      apply Permutation_map. exact Hperm. }
    rewrite (calculateSemesterGPA_sums (c :: rest)) by discriminate.
    rewrite (calculateSemesterGPA_sums courses' Hne').
    destruct (gtb_reflect (Spec.creditSum (c :: rest)) 0) as [Hgt | Hngt];
      destruct (gtb_reflect (Spec.creditSum courses') 0) as [Hgt' | Hngt'];
      try lra; try reflexivity.
    unfold Qdiv. apply Qmult_comp; [exact Hwp | apply Qinv_comp; exact Hcs].
Qed.

Lemma semester_gpa_order_witness :
  JS.calculateSemesterGPA Spec.fourCourses
  == JS.calculateSemesterGPA (rev Spec.fourCourses).
Proof.
  apply (semester_gpa_order Spec.fourCourses (rev Spec.fourCourses)).
  apply Permutation_rev.
Defined.

(** The semester GPA times the credit sum is the point sum. *)
Lemma semester_gpa_times_credits (courses : list JS.Course) :
  courses <> [] -> 0 < Spec.creditSum courses ->
  JS.calculateSemesterGPA courses * Spec.creditSum courses
  == Spec.weightedPoints courses.
Proof.
  intros Hne Hpos.
  rewrite (calculateSemesterGPA_formula courses Hne Hpos).
  field. lra.
Qed.

(** X10.  In exact arithmetic, blending the semester GPAs of two course
    lists by their credit sums, as [calculateCumulativeCGPA] does, gives the
    semester GPA of the two lists taken together.  Computed on binary64
    numbers the two sides can differ by a rounding: for the lists
    [previousExample] and [currentExample] the blend is below the GPA of the
    two lists together, which is 2.5. *)
Theorem cumulative_of_two_semesters (previous current : list JS.Course) :
  previous <> [] -> current <> [] ->
  0 < Spec.creditSum previous -> 0 < Spec.creditSum current ->
  JS.calculateCumulativeCGPA
    (JS.calculateSemesterGPA previous) (Spec.creditSum previous)
    (JS.calculateSemesterGPA current) (Spec.creditSum current)
  == JS.calculateSemesterGPA (previous ++ current)%list
  /\ PrimFloat.ltb
       (JS64.calculateCumulativeCGPA
          (JS64.calculateSemesterGPA JS64.previousExample)
          (JS64.sumCredits JS64.previousExample)
          (JS64.calculateSemesterGPA JS64.currentExample)
          (JS64.sumCredits JS64.currentExample))
       (JS64.calculateSemesterGPA
          (JS64.previousExample ++ JS64.currentExample)%list)
     = true.
Proof.
  intros Hp Hc Hpc Hcc. split; [| vm_compute; reflexivity].
  assert (Hne : (previous ++ current)%list <> []).
  { destruct previous; [now contradiction Hp | discriminate]. }
  pose proof (creditSum_app previous current) as Hcs.
  pose proof (weightedPoints_app previous current) as Hwp.
  rewrite (calculateSemesterGPA_formula _ Hne) by lra.
  destruct (calculateCumulativeCGPA_blend
              (JS.calculateSemesterGPA previous) (Spec.creditSum previous)
              (JS.calculateSemesterGPA current) (Spec.creditSum current))
    as [Hblend _].
  rewrite Hblend by lra.
  unfold Qdiv. apply Qmult_comp; [| apply Qinv_comp; symmetry; exact Hcs].
  rewrite (semester_gpa_times_credits previous Hp Hpc).
  rewrite (semester_gpa_times_credits current Hc Hcc).
  symmetry. exact Hwp.
Qed.

Lemma cumulative_of_two_semesters_witness :
  JS.calculateCumulativeCGPA
    (JS.calculateSemesterGPA Spec.fourCourses) (Spec.creditSum Spec.fourCourses)
    (JS.calculateSemesterGPA [JS.mkCourse "Physics" 4 72])
    (Spec.creditSum [JS.mkCourse "Physics" 4 72])
  == JS.calculateSemesterGPA
       (Spec.fourCourses ++ [JS.mkCourse "Physics" 4 72])%list.
Proof.
  apply (cumulative_of_two_semesters Spec.fourCourses
           [JS.mkCourse "Physics" 4 72]);
    [discriminate | discriminate | reflexivity | reflexivity].
Defined.

(** X11.  In exact arithmetic, with non-negative credits of positive sum
    the cumulative CGPA lies between the previous CGPA and the semester
    GPA; it is the semester GPA when there are no previous credits and the
    previous CGPA when there are no current credits.  Computed on binary64
    numbers the result can leave that interval by a rounding:
    [calculateCumulativeCGPA(3.1, 3, 3.1, 15)] is below 3.1. *)
Theorem cumulative_between
    (prevCGPA prevCredits currentGPA currentCredits : Q) :
  0 <= prevCredits -> 0 <= currentCredits ->
  0 < prevCredits + currentCredits ->
  let newCGPA :=
    JS.calculateCumulativeCGPA prevCGPA prevCredits currentGPA currentCredits in
  (prevCGPA <= currentGPA -> prevCGPA <= newCGPA <= currentGPA)
  /\ (currentGPA <= prevCGPA -> currentGPA <= newCGPA <= prevCGPA)
  /\ (prevCredits == 0 -> newCGPA == currentGPA)
  /\ (currentCredits == 0 -> newCGPA == prevCGPA)
  /\ PrimFloat.ltb JS64.blendOfEqual JS64.threePointOne = true.
Proof.
  intros Hp Hc Hsum newCGPA.
  destruct (calculateCumulativeCGPA_blend prevCGPA prevCredits
                                          currentGPA currentCredits)
    as [Hblend _].
  unfold newCGPA. rewrite Hblend by exact Hsum. clear Hblend newCGPA.
  repeat apply conj.
  - intros Hle. split.
    + apply Qle_shift_div_l; [exact Hsum |]. nra.
    + apply Qle_shift_div_r; [exact Hsum |]. nra.
  - intros Hle. split.
    + apply Qle_shift_div_l; [exact Hsum |]. nra.
    + apply Qle_shift_div_r; [exact Hsum |]. nra.
  - intros Hzero. field_simplify_eq; [| lra]. rewrite Hzero. ring.
  - intros Hzero. field_simplify_eq; [| lra]. rewrite Hzero. ring.
  - vm_compute. reflexivity.
Qed.

Lemma cumulative_between_witness :
  3.45 <= JS.calculateCumulativeCGPA 3.45 36 3.875 12 <= 3.875
  /\ JS.calculateCumulativeCGPA 0 0 3.875 12 == 3.875.
Proof.
  assert (H36 : 0 <= 36) by discriminate.
  assert (H12 : 0 <= 12) by discriminate.
  assert (H0 : 0 <= 0) by discriminate.
  assert (H48 : 0 < 36 + 12) by reflexivity.
  assert (H012 : 0 < 0 + 12) by reflexivity.
  destruct (cumulative_between 3.45 36 3.875 12 H36 H12 H48) as (Hup & _).
  destruct (cumulative_between 0 0 3.875 12 H0 H12 H012) as (_ & _ & Hnew & _).
  split; [apply Hup; discriminate | apply Hnew; reflexivity].
Defined.

(** X12.  When the courses of a non-empty list have whole credits above 0,
    of sum at most 2^49, and all earn the same grade point, the semester GPA
    is that grade point, whatever the credits are: the products and the
    two sums are then exact on binary64 numbers as well, and the quotient
    is the grade point itself. *)
Theorem semester_gpa_uniform (courses : list JS.Course) (pt : Q) :
  courses <> [] ->
  Forall Spec.wholeCredits courses ->
  Spec.creditSum courses <= inject_Z (2 ^ 49) ->
  Forall (fun c => JS.point (JS.marksToGrade (JS.marks c)) == pt) courses ->
  JS.calculateSemesterGPA courses == pt.
Proof.
  intros Hne Hwhole _ Hall.
  assert (Hpos : 0 < Spec.creditSum courses).
  { apply Forall_positive_nonempty; [exact Hne |].
    revert Hwhole. apply Forall_impl. intros c (n & Hn & Hc). rewrite Hc.
    change 0 with (inject_Z 0). rewrite <- Zlt_Qlt. exact Hn. }
  assert (Hwp : Spec.weightedPoints courses == pt * Spec.creditSum courses).
  { clear Hne Hpos Hwhole. induction Hall as [| c rest Hc _ IH].
    - unfold Spec.weightedPoints, Spec.creditSum, Spec.total. cbn [map fold_right].
      ring.
    - rewrite weightedPoints_cons, creditSum_cons, IH, Hc. ring. }
  rewrite (calculateSemesterGPA_formula courses Hne Hpos), Hwp.
  field. lra.
Qed.

Lemma semester_gpa_uniform_witness :
  JS.calculateSemesterGPA
    [JS.mkCourse "Algebra" 3 86; JS.mkCourse "Physics" 1 89] == 3.75.
Proof.
  apply (semester_gpa_uniform
           [JS.mkCourse "Algebra" 3 86; JS.mkCourse "Physics" 1 89] 3.75).
  - discriminate.
  - constructor; [exists 3%Z; split; reflexivity |].
    constructor; [exists 1%Z; split; reflexivity | constructor].
  - discriminate.
  - repeat constructor.
Defined.

(** ** The two aggregations compared *)

Lemma sums_toJS (courses : list Java.Course) :
  Forall (fun c => 0 <= Java.marks c <= 100 /\ ~ Spec.inGap (Java.marks c))
         courses ->
  Spec.weightedPoints (map Spec.toJS courses)
  == Spec.weightedPointsJava courses
  /\ Spec.creditSum (map Spec.toJS courses)
     == inject_Z (Spec.creditSumJava courses).
Proof.
  induction 1 as [| c rest [Hrange Hgap] _ [IHp IHc]].
  - split; reflexivity.
  - assert (Hpoint : Spec.pointOfJava (Java.marks c)
                     == JS.point (JS.marksToGrade (Java.marks c))).
    { destruct (lookups_agree_aux (Java.marks c) Hrange Hgap)
        as (g & Hg & _ & Hpoint).
      unfold Spec.pointOfJava. rewrite Hg. exact Hpoint. }
    cbn [map]. rewrite weightedPoints_cons, creditSum_cons, IHp, IHc.
    unfold Spec.weightedPointsJava, Spec.creditSumJava, Spec.total.
    cbn [map fold_right Spec.toJS JS.marks JS.credits].
    rewrite inject_Z_plus, Hpoint. split; reflexivity.
Qed.

(** X13.  On a non-empty array of courses whose marks lie in bands of the
    web scale (all integer marks of [0, 100] do) and whose credit sum fits
    an [int], the Java semester GPA is the web semester GPA of the same
    courses. *)
Theorem semester_gpas_agree (c : Java.Course) (rest : list Java.Course) :
  let courses := c :: rest in
  Forall (fun c => 0 <= Java.marks c <= 100 /\ ~ Spec.inGap (Java.marks c))
         courses ->
  (- 2 ^ 31 <= Spec.creditSumJava courses < 2 ^ 31)%Z ->
  exists gpa, Java.calculateSemesterGPA (Some courses) = Java.Ok gpa
              /\ gpa == JS.calculateSemesterGPA (map Spec.toJS courses).
Proof.
  intros courses Hall Hsum.
  assert (Hmarks : Forall (fun c => 0 <= Java.marks c <= 100) courses).
  { revert Hall. apply Forall_impl. intros a [Ha _]. exact Ha. }
  destruct (Java_calculateSemesterGPA_valid c rest Hmarks Hsum)
    as (gpa & Hgpa & Hpos & Hnpos).
  fold courses in Hgpa, Hpos, Hnpos.
  exists gpa. split; [exact Hgpa |].
  destruct (sums_toJS courses Hall) as [Hwp Hcs].
  rewrite (calculateSemesterGPA_sums (map Spec.toJS courses))
    by (unfold courses; discriminate).
  destruct (Z.ltb_spec 0 (Spec.creditSumJava courses)) as [Hgt | Hle].
  - assert (Hq : 0 < inject_Z (Spec.creditSumJava courses))
      by (change 0 with (inject_Z 0); rewrite <- Zlt_Qlt; exact Hgt).
    destruct (gtb_reflect (Spec.creditSum (map Spec.toJS courses)) 0)
      as [_ | Hn]; [| lra].
    rewrite (Hpos Hgt).
    unfold Qdiv. apply Qmult_comp; [| apply Qinv_comp]; symmetry; assumption.
  - assert (Hq : inject_Z (Spec.creditSumJava courses) <= 0)
      by (change 0 with (inject_Z 0); rewrite <- Zle_Qle; exact Hle).
    destruct (gtb_reflect (Spec.creditSum (map Spec.toJS courses)) 0)
      as [Hp | _]; [lra |].
    rewrite (Hnpos ltac:(lia)). reflexivity.
Qed.

Lemma semester_gpas_agree_witness :
  exists gpa,
    Java.calculateSemesterGPA (Some Spec.fourCoursesJava) = Java.Ok gpa
    /\ gpa == JS.calculateSemesterGPA (map Spec.toJS Spec.fourCoursesJava).
Proof.
  apply (semester_gpas_agree (Java.mkCourse "Programming in Java" 3 88)
                             (tl Spec.fourCoursesJava)).
  - repeat constructor; try discriminate;
      apply (integer_not_inGap 88) || apply (integer_not_inGap 92)
      || apply (integer_not_inGap 85) || apply (integer_not_inGap 90).
  - split; [discriminate | reflexivity].
Defined.

(** ** Reading the form *)

Lemma pushRow_accepts (row : JS.CourseRow) (course : JS.Course) :
  In course (JS.pushRow [] row) <-> Spec.rowAccepted row course.
Proof.
  unfold JS.pushRow, Spec.rowAccepted.
  destruct (JS.row_credits row) as [credits |];
    [| split; [contradiction | intros (_ & Hc & _); discriminate Hc]].
  destruct (JS.row_marks row) as [marks |];
    [| split; [contradiction | intros (_ & _ & Hm & _); discriminate Hm]].
  destruct (String.eqb_spec (JS.row_title row) "") as [Hempty | Htitle];
    cbn [negb andb];
    [split; [contradiction | intros (Ht & _); contradiction] |].
  destruct (gtb_reflect credits 0) as [Hc | Hc]; cbn [andb];
    [| split; [contradiction | intros (_ & [= <-] & _ & _ & Hpos & _); contradiction]].
  destruct (geb_reflect marks 0) as [Hm0 | Hm0]; cbn [andb];
    [| split; [contradiction
              | intros (_ & _ & [= <-] & _ & _ & [Hlo _]); contradiction]].
  destruct (leb_reflect marks 100) as [Hm100 | Hm100]; cbn [andb];
    [| split; [contradiction
              | intros (_ & _ & [= <-] & _ & _ & [_ Hhi]); contradiction]].
  cbn [app In]. split.
  - intros [<- | []]. cbn. repeat split; assumption.
  - intros (_ & [= Hcredits] & [= Hmarks] & Htitle' & _). left.
    destruct course as [t c m]. cbn in *. subst. reflexivity.
Qed.

Lemma pushRow_app (courses : list JS.Course) (row : JS.CourseRow) :
  JS.pushRow courses row = (courses ++ JS.pushRow [] row)%list.
Proof.
  unfold JS.pushRow.
  destruct (JS.row_credits row) as [credits |]; [| now rewrite app_nil_r].
  destruct (JS.row_marks row) as [marks |]; [| now rewrite app_nil_r].
  destruct (negb (JS.row_title row =? "")%string
            && (Num.gtb credits 0 && Num.geb marks 0 && Num.leb marks 100));
    [reflexivity | now rewrite app_nil_r].
Qed.

Lemma fold_pushRow (rows : list JS.CourseRow) (courses : list JS.Course) :
  fold_left JS.pushRow rows courses
  = (courses ++ JS.getAllCourses rows)%list.
Proof.
  unfold JS.getAllCourses. revert courses.
  induction rows as [| row rows IH]; intros courses; cbn [fold_left].
  - now rewrite app_nil_r.
  - rewrite IH, (IH (JS.pushRow [] row)), (pushRow_app courses row).
    now rewrite app_assoc.
Qed.

Lemma getAllCourses_cons (row : JS.CourseRow) (rows : list JS.CourseRow) :
  JS.getAllCourses (row :: rows)
  = (JS.pushRow [] row ++ JS.getAllCourses rows)%list.
Proof.
  unfold JS.getAllCourses at 1. cbn [fold_left]. apply fold_pushRow.
Qed.

Lemma getAllCourses_In (rows : list JS.CourseRow) (course : JS.Course) :
  In course (JS.getAllCourses rows)
  <-> exists row, In row rows /\ Spec.rowAccepted row course.
Proof.
  induction rows as [| row rows IH].
  - cbn. split; [contradiction | intros (row & [] & _)].
  - rewrite getAllCourses_cons, in_app_iff, IH, pushRow_accepts. split.
    + intros [Hrow | (row' & Hin & Hacc)].
      * exists row. split; [left; reflexivity | exact Hrow].
      * exists row'. split; [right; exact Hin | exact Hacc].
    + intros (row' & [<- | Hin] & Hacc).
      * left. exact Hacc.
      * right. exists row'. split; assumption.
Qed.

(** X14.  [getAllCourses] keeps the rows in their order and treats each row
    on its own: the courses of two runs of rows are those of the first run
    followed by those of the second; and a course is returned exactly when
    some row has a non-empty title, credits above 0 and marks of [0, 100],
    which then are the course's. *)
Theorem getAllCourses_rows (rows rows' : list JS.CourseRow) (course : JS.Course) :
  JS.getAllCourses (rows ++ rows')
  = (JS.getAllCourses rows ++ JS.getAllCourses rows')%list
  /\ (In course (JS.getAllCourses rows)
      <-> exists row, In row rows /\ Spec.rowAccepted row course).
Proof.
  split; [| apply getAllCourses_In].
  unfold JS.getAllCourses at 1. rewrite fold_left_app.
  fold (JS.getAllCourses rows). apply fold_pushRow.
Qed.

(** ** The form handler's outcomes *)

(** X15.  [calculateCGPA] displays a result exactly when the current CGPA
    (0 when the field is blank) lies in [0, 4], the completed credits
    (0 when blank) are not negative and some row is accepted as a course;
    with valid CGPA and credits but no accepted row it asks for a course. *)
Theorem calculateCGPA_outcomes (currentCGPAField : option Q)
    (completedCreditsField : option Z) (courseRows : list JS.CourseRow) :
  let currentCGPA := JS.orZero currentCGPAField in
  let completedCredits :=
    JS.orZero (option_map inject_Z completedCreditsField) in
  let outcome :=
    JS.calculateCGPA currentCGPAField completedCreditsField courseRows in
  ((exists semesterGPA newCGPA totalCredits status,
       outcome = JS.Display semesterGPA newCGPA totalCredits status)
   <-> 0 <= currentCGPA <= 4 /\ 0 <= completedCredits
       /\ exists row course, In row courseRows /\ Spec.rowAccepted row course)
  /\ (0 <= currentCGPA <= 4 -> 0 <= completedCredits ->
      (forall row course, In row courseRows -> ~ Spec.rowAccepted row course) ->
      outcome = JS.Alert "Please add at least one course with valid information").
Proof.
  intros currentCGPA completedCredits outcome.
  unfold outcome, JS.calculateCGPA. cbv zeta.
  fold currentCGPA. fold completedCredits.
  assert (Hcourses : JS.getAllCourses courseRows = []
                     <-> forall row course, In row courseRows ->
                                            ~ Spec.rowAccepted row course).
  { split.
    - intros Hnil row course Hin Hacc.
      assert (Hc : In course (JS.getAllCourses courseRows))
        by (apply getAllCourses_In; exists row; split; assumption).
      rewrite Hnil in Hc. exact Hc.
    - intros Hnone.
      destruct (JS.getAllCourses courseRows) as [| course rest] eqn:Hall;
        [reflexivity | exfalso].
      assert (Hc : In course (JS.getAllCourses courseRows))
        by (rewrite Hall; left; reflexivity).
      apply getAllCourses_In in Hc. destruct Hc as (row & Hin & Hacc).
      exact (Hnone row course Hin Hacc). }
  split.
  - destruct (ltb_reflect currentCGPA 0) as [Hlo | Hlo];
      [split; [intros (? & ? & ? & ? & Heq); discriminate Heq
              | intros ([H0 _] & _); lra] |].
    destruct (gtb_reflect currentCGPA 4) as [Hhi | Hhi];
      [split; [intros (? & ? & ? & ? & Heq); discriminate Heq
              | intros ([_ H4] & _); lra] |].
    cbn [orb].
    destruct (ltb_reflect completedCredits 0) as [Hcc | Hcc];
      [split; [intros (? & ? & ? & ? & Heq); discriminate Heq
              | intros (_ & H0 & _); lra] |].
    destruct (JS.getAllCourses courseRows) as [| course rest] eqn:Hall.
    + split; [intros (? & ? & ? & ? & Heq); discriminate Heq |].
      intros (_ & _ & row & course & Hin & Hacc).
      destruct Hcourses as [Hnone _].
      exfalso. exact (Hnone eq_refl row course Hin Hacc).
    + split.
      * intros _. split; [lra |]. split; [lra |].
        assert (Hc : In course (JS.getAllCourses courseRows))
          by (rewrite Hall; left; reflexivity).
        apply getAllCourses_In in Hc. destruct Hc as (row & Hin & Hacc).
        exists row, course. split; assumption.
      * intros _. do 4 eexists. reflexivity.
  - intros [H0 H4] Hcc Hnone.
    destruct (ltb_reflect currentCGPA 0) as [Hlo | _]; [lra |].
    destruct (gtb_reflect currentCGPA 4) as [Hhi | _]; [lra |].
    cbn [orb].
    destruct (ltb_reflect completedCredits 0) as [Hneg | _]; [lra |].
    apply Hcourses in Hnone. rewrite Hnone. reflexivity.
Qed.

Lemma calculateCGPA_outcomes_witness :
  JS.calculateCGPA None None [JS.mkRow "" (Some 3) (Some 88);
                              JS.mkRow "Physics" None (Some 88);
                              JS.mkRow "Algebra" (Some 3) (Some 101)]
  = JS.Alert "Please add at least one course with valid information".
Proof.
  apply (calculateCGPA_outcomes None None).
  - split; discriminate.
  - discriminate.
  - intros row course [<- | [<- | [<- | []]]] Hacc.
    + destruct Hacc as (Htitle & _). apply Htitle. reflexivity.
    + destruct Hacc as (_ & Hcredits & _). discriminate Hcredits.
    + destruct Hacc as (_ & _ & [= <-] & _ & _ & [_ Hhi]).
      apply Hhi. reflexivity.
Defined.

(** ** The live grade display *)

(** X17.  While marks of [0, 100] are typed into a course row, the grade
    shown beside them is one of nine texts, from "A+ (4.00)" down to
    "F (0.00)", in the colour of its letter: the one of the band the marks
    lie in, and "F (0.00)" in red for marks between two bands.  The text
    never shows the sentinel Invalid and the colour is never the fallback
    of [getGradeColor]. *)
Theorem live_grade_display (marks : Q) :
  0 <= marks <= 100 ->
  (forall lo hi shown, In (lo, hi, shown) Spec.gradeDisplays ->
                       lo <= marks <= hi ->
                       JS.onMarksInput (Some marks) = shown)
  /\ (Spec.inGap marks ->
      JS.onMarksInput (Some marks)
      = JS.mkDisplay "F (0.00)" (JS.Code "#dc2626"))
  /\ (exists lo hi, In (lo, hi, JS.onMarksInput (Some marks)) Spec.gradeDisplays)
  /\ JS.color (JS.onMarksInput (Some marks)) <> JS.Code "#f59e0b".
Proof.
  intros [H0 H100].
  assert (Hband : forall lo hi shown, In (lo, hi, shown) Spec.gradeDisplays ->
                                      lo <= marks <= hi ->
                                      JS.onMarksInput (Some marks) = shown).
  { intros lo hi shown Hin [Hlo Hhi].
    unfold Spec.gradeDisplays in Hin. cbn [In] in Hin.
    repeat (destruct Hin as [[= <- <- <-] | Hin];
            [ unfold JS.onMarksInput, JS.marksToGrade, JS.GRADING_SCALE;
              cbn [JS.scanBands JS.min JS.max JS.band_grade JS.band_point];
              cmp; reflexivity |]).
    contradiction. }
  assert (Hgap : Spec.inGap marks ->
                 JS.onMarksInput (Some marks)
                 = JS.mkDisplay "F (0.00)" (JS.Code "#dc2626")).
  { intros Hin.
    destruct (fallback_aux marks (conj H0 H100)) as [_ Hf].
    unfold JS.onMarksInput. cmp. rewrite (Hf Hin). reflexivity. }
  assert (Hone : exists lo hi,
             In (lo, hi, JS.onMarksInput (Some marks)) Spec.gradeDisplays).
  { destruct (gap_or_band marks (conj H0 H100))
      as [Hin | (lo & hi & letter & pt & Hin & Hrange)].
    - rewrite (Hgap Hin). exists 0, 49. unfold Spec.gradeDisplays. cbn [In].
      tauto.
    - unfold Spec.bands in Hin. cbn [In] in Hin.
      repeat (destruct Hin as [[= <- <- <- <-] | Hin];
              [ match goal with
                | |- exists lo hi, In (_, _, ?d) _ =>
                    match type of Hrange with
                    | ?l <= _ <= ?h =>
                        exists l, h;
                        erewrite (Hband l h);
                        [ | | exact Hrange];
                        unfold Spec.gradeDisplays; cbn [In]; tauto
                    end
                end |]).
      contradiction. }
  split; [exact Hband |]. split; [exact Hgap |]. split; [exact Hone |].
  destruct Hone as (lo & hi & Hin).
  remember (JS.onMarksInput (Some marks)) as shown eqn:Hshown.
  clear Hshown Hband Hgap.
  unfold Spec.gradeDisplays in Hin. cbn [In] in Hin.
  repeat (destruct Hin as [[= _ _ <-] | Hin]; [cbn; discriminate |]).
  contradiction.
Qed.

Lemma live_grade_display_witness :
  JS.onMarksInput (Some 92) = JS.mkDisplay "A+ (4.00)" (JS.Code "#16a34a")
  /\ JS.onMarksInput (Some 89.5) = JS.mkDisplay "F (0.00)" (JS.Code "#dc2626").
Proof.
  assert (H92 : 0 <= 92 <= 100) by (split; discriminate).
  assert (H895 : 0 <= 89.5 <= 100) by (split; discriminate).
  destruct (live_grade_display 92 H92) as (Hband & _).
  destruct (live_grade_display 89.5 H895) as (_ & Hgap & _).
  split.
  - apply (Hband 90 100); [left; reflexivity | split; discriminate].
  - apply Hgap. unfold Spec.inGap. repeat right. split; reflexivity.
Defined.

(** ** The course rows *)

Lemma NoDup_map_filter {A B : Type} (f : A -> B) (keep : A -> bool) (l : list A) :
  NoDup (map f l) -> NoDup (map f (filter keep l)).
Proof.
  induction l as [| a l IH]; cbn [map filter]; [trivial |].
  intros Hnd. inversion Hnd as [| ? ? Hnotin Hrest].
  destruct (keep a); [| apply IH, Hrest].
  cbn [map]. constructor; [| apply IH, Hrest].
  intros Hin. apply Hnotin.
  apply in_map_iff in Hin. destruct Hin as (kept & Hfx & Hkept).
  apply filter_In in Hkept. apply in_map_iff. exists kept. tauto.
Qed.

Lemma NoDup_map_snoc {A B : Type} (f : A -> B) (l : list A) (a : A) :
  NoDup (map f l) -> ~ In (f a) (map f l) -> NoDup (map f (l ++ [a])).
Proof.
  induction l as [| x l IH]; cbn [map app]; intros Hnd Hnotin.
  - constructor; [intros [] | constructor].
  - inversion Hnd as [| ? ? Hx Hrest]. constructor.
    + rewrite map_app, in_app_iff. cbn [map In].
      intros [Hin | [Heq | []]]; [contradiction |].
      apply Hnotin. left. symmetry. exact Heq.
    + apply IH; [exact Hrest |]. intros Hin. apply Hnotin. right. exact Hin.
Qed.

Lemma addCourse_numberedApart (page : JS.Page) :
  Spec.numberedApart page -> Spec.numberedApart (JS.addCourse page).
Proof.
  intros (Hnodes & Hfresh & Hids & Hcounter).
  unfold Spec.numberedApart, JS.addCourse.
  cbn [JS.rows JS.nextNode JS.courseCounter].
  repeat apply conj.
  - apply NoDup_map_snoc; [exact Hnodes |]. cbn [JS.node].
    intros Hin. apply in_map_iff in Hin. destruct Hin as (row & Hnode & Hrow).
    rewrite Forall_forall in Hfresh. specialize (Hfresh row Hrow). lia.
  - apply Forall_app. split.
    + revert Hfresh. apply Forall_impl. intros row Hrow. lia.
    + constructor; [cbn; lia | constructor].
  - apply NoDup_map_snoc; [exact Hids |]. cbn [JS.courseId].
    intros Hin. apply in_map_iff in Hin. destruct Hin as (row & Hid & Hrow).
    rewrite Forall_forall in Hcounter. specialize (Hcounter row Hrow). lia.
  - apply Forall_app. split.
    + revert Hcounter. apply Forall_impl. intros row Hrow. lia.
    + constructor; [cbn; lia | constructor].
Qed.

Lemma removeCourse_rows (id : Z) (page : JS.Page) :
  JS.rows (JS.removeCourse id page) = JS.rows page
  /\ JS.courseCounter (JS.removeCourse id page) = JS.courseCounter page
  /\ JS.nextNode (JS.removeCourse id page) = JS.nextNode page.
Proof.
  unfold JS.removeCourse. destruct (JS.querySelector page id); cbn; tauto.
Qed.

Lemma timerFires_numberedApart (n : nat) (page : JS.Page) :
  Spec.numberedApart page -> Spec.numberedApart (JS.timerFires n page).
Proof.
  intros (Hnodes & Hfresh & Hids & Hcounter).
  unfold Spec.numberedApart, JS.timerFires.
  cbn [JS.rows JS.nextNode JS.courseCounter].
  repeat apply conj.
  - apply NoDup_map_filter, Hnodes.
  - rewrite Forall_forall in *. intros row Hrow.
    apply filter_In in Hrow. apply Hfresh, Hrow.
  - apply NoDup_map_filter, Hids.
  - rewrite Forall_forall in *. intros row Hrow.
    apply filter_In in Hrow. apply Hcounter, Hrow.
Qed.

Lemma handle_numberedApart (page : JS.Page) (event : JS.Event) :
  Spec.keepsCounter event ->
  Spec.numberedApart page -> Spec.numberedApart (JS.handle page event).
Proof.
  intros Hevent Hpage. destruct event as [| id | n |]; cbn [JS.handle].
  - apply addCourse_numberedApart, Hpage.
  - destruct (removeCourse_rows id page) as (Hrows & Hcounter & Hnext).
    unfold Spec.numberedApart. rewrite Hrows, Hcounter, Hnext. exact Hpage.
  - destruct (existsb (Nat.eqb n) (JS.timers page));
      [apply timerFires_numberedApart |]; exact Hpage.
  - now contradiction Hevent.
Qed.

(** X18.  As long as the calculator is not reset, adding courses, clicking
    remove buttons and the firing of their timers keep the rows numbered
    apart: no two rows share a [data-course-id], and no number exceeds
    [courseCounter]. *)
Theorem rows_stay_numbered_apart (page : JS.Page) (events : list JS.Event) :
  Spec.numberedApart page ->
  Forall Spec.keepsCounter events ->
  Spec.numberedApart (fold_left JS.handle events page).
Proof.
  intros Hpage Hevents. revert page Hpage.
  induction Hevents as [| event events Hevent _ IH]; intros page Hpage;
    cbn [fold_left].
  - exact Hpage.
  - apply IH, handle_numberedApart; assumption.
Qed.

Lemma firstPage_numberedApart : Spec.numberedApart Spec.firstPage.
Proof.
  unfold Spec.numberedApart, Spec.firstPage.
  cbn [JS.rows JS.nextNode JS.courseCounter map JS.node JS.courseId].
  repeat apply conj.
  - constructor; [intros [] | constructor].
  - constructor; [cbn; lia | constructor].
  - constructor; [intros [] | constructor].
  - constructor; [cbn; lia | constructor].
Qed.

Lemma rows_stay_numbered_apart_witness :
  Spec.numberedApart
    (fold_left JS.handle
       [JS.AddCourse; JS.AddCourse; JS.RemoveCourse 1; JS.TimerFires 0;
        JS.AddCourse]
       Spec.firstPage).
Proof.
  apply (rows_stay_numbered_apart Spec.firstPage).
  - exact firstPage_numberedApart.
  - repeat constructor; discriminate.
Defined.

Lemma NoDup_map_injective {A B : Type} (f : A -> B) (l : list A) (a b : A) :
  NoDup (map f l) -> In a l -> In b l -> f a = f b -> a = b.
Proof.
  induction l as [| x l IH]; cbn [map In]; [contradiction |].
  intros Hnd Ha Hb Hf. inversion Hnd as [| ? ? Hx Hrest].
  destruct Ha as [<- | Ha]; destruct Hb as [<- | Hb].
  - reflexivity.
  - exfalso. apply Hx. rewrite Hf. apply in_map, Hb.
  - exfalso. apply Hx. rewrite <- Hf. apply in_map, Ha.
  - apply IH; assumption.
Qed.

Lemma querySelector_finds (page : JS.Page) (row : JS.Row) :
  NoDup (map JS.courseId (JS.rows page)) -> In row (JS.rows page) ->
  JS.querySelector page (JS.courseId row) = Some row.
Proof.
  intros Hids Hrow. unfold JS.querySelector.
  destruct (find (fun r => (JS.courseId r =? JS.courseId row)%Z) (JS.rows page))
    as [found |] eqn:Hfind.
  - apply find_some in Hfind. destruct Hfind as [Hin Heq].
    apply Z.eqb_eq in Heq.
    f_equal. apply (NoDup_map_injective JS.courseId (JS.rows page)); assumption.
  - exfalso. apply (find_none _ _ Hfind) in Hrow.
    rewrite Z.eqb_refl in Hrow. discriminate Hrow.
Qed.

(** X19.  On a page whose rows are numbered apart, the remove button of a
    row starts one timer, for that row; when the timer fires the row is
    gone and every other row is still there, and the counter is not
    touched.  A call of [removeCourse] with a number that no row carries
    changes nothing. *)
Theorem remove_button_removes_its_row (page : JS.Page) (row : JS.Row) :
  Spec.numberedApart page -> In row (JS.rows page) ->
  let clicked := JS.removeCourse (JS.courseId row) page in
  let after := JS.handle clicked (JS.TimerFires (JS.node row)) in
  JS.timers clicked = (JS.timers page ++ [JS.node row])%list
  /\ JS.rows clicked = JS.rows page
  /\ (forall other, In other (JS.rows after)
                    <-> In other (JS.rows page) /\ other <> row)
  /\ JS.courseCounter after = JS.courseCounter page
  /\ (forall id, (forall r, In r (JS.rows page) -> JS.courseId r <> id) ->
                 JS.removeCourse id page = page).
Proof.
  intros (Hnodes & _ & Hids & _) Hrow clicked after.
  assert (Hclicked : clicked
                     = JS.mkPage (JS.courseCounter page) (JS.rows page)
                         (JS.timers page ++ [JS.node row]) (JS.nextNode page)
                         (JS.currentCGPAValue page)
                         (JS.completedCreditsValue page)
                         (JS.totalSemestersValue page) (JS.resultsShown page)).
  { unfold clicked, JS.removeCourse.
    rewrite (querySelector_finds page row Hids Hrow). reflexivity. }
  assert (Hafter : after = JS.timerFires (JS.node row) clicked).
  { unfold after. cbn [JS.handle]. rewrite Hclicked. cbn [JS.timers].
    rewrite existsb_app. cbn [existsb]. rewrite Nat.eqb_refl.
    now rewrite orb_true_r. }
  repeat apply conj.
  - rewrite Hclicked. reflexivity.
  - rewrite Hclicked. reflexivity.
  - intros other. rewrite Hafter, Hclicked.
    cbn [JS.timerFires JS.rows]. rewrite filter_In. split.
    + intros [Hin Hnode]. split; [exact Hin |].
      intros ->. rewrite Nat.eqb_refl in Hnode. discriminate Hnode.
    + intros [Hin Hneq]. split; [exact Hin |].
      destruct (Nat.eqb_spec (JS.node other) (JS.node row)) as [Heq | _];
        [| reflexivity].
      exfalso. apply Hneq.
      apply (NoDup_map_injective JS.node (JS.rows page)); assumption.
  - rewrite Hafter, Hclicked. reflexivity.
  - intros id Hnone. unfold JS.removeCourse, JS.querySelector.
    destruct (find (fun r => (JS.courseId r =? id)%Z) (JS.rows page))
      as [found |] eqn:Hfind; [| reflexivity].
    apply find_some in Hfind. destruct Hfind as [Hin Heq].
    apply Z.eqb_eq in Heq. exfalso. exact (Hnone found Hin Heq).
Qed.

Lemma remove_button_removes_its_row_witness :
  let page := JS.addCourse (JS.addCourse Spec.firstPage) in
  let second := JS.mkDomRow 1 2 "" "" "" "-" None in
  JS.rows (JS.handle (JS.removeCourse 2 page) (JS.TimerFires 1))
  = [JS.mkDomRow 0 1 "" "" "" "-" None; JS.mkDomRow 2 3 "" "" "" "-" None]
  /\ forall other,
       In other (JS.rows (JS.handle (JS.removeCourse 2 page) (JS.TimerFires 1)))
       <-> In other (JS.rows page) /\ other <> second.
Proof.
  intros page second. split; [reflexivity |].
  assert (Hpage : Spec.numberedApart page)
    by (apply addCourse_numberedApart, addCourse_numberedApart,
          firstPage_numberedApart).
  assert (Hin : In second (JS.rows page)) by (right; left; reflexivity).
  destruct (remove_button_removes_its_row page second Hpage Hin)
    as (_ & _ & Hrows & _).
  exact Hrows.
Defined.

(** ** Resetting the calculator *)

Lemma iter_addCourse (n : nat) (page : JS.Page) :
  let page' := Nat.iter n JS.addCourse page in
  JS.courseCounter page' = (JS.courseCounter page + Z.of_nat n)%Z
  /\ JS.nextNode page' = (JS.nextNode page + n)%nat
  /\ JS.timers page' = JS.timers page
  /\ exists added, JS.rows page' = (JS.rows page ++ added)%list
                   /\ List.length added = n.
Proof.
  induction n as [| n IH].
  - cbn [Nat.iter nat_rect]. cbv zeta.
    split; [lia |]. split; [lia |]. split; [reflexivity |].
    exists []. split; [now rewrite app_nil_r | reflexivity].
  - cbv zeta in IH. destruct IH as (Hc & Hn & Ht & added & Hrows & Hlen).
    cbv zeta. rewrite Nat.iter_succ.
    set (before := Nat.iter n JS.addCourse page) in *.
    unfold JS.addCourse.
    cbn [JS.courseCounter JS.nextNode JS.timers JS.rows].
    split; [lia |]. split; [lia |]. split; [exact Ht |].
    eexists. rewrite Hrows, <- app_assoc. split; [reflexivity |].
    rewrite List.length_app. cbn [List.length]. lia.
Qed.

(** X20.  [resetCalculator] keeps the first row and its number and sets the
    counter back to 1.  When the number of that row is at most 1 the rows
    stay numbered apart.  When it is some c above 1 (the first row having
    been removed before), the (c - 1)-th course added afterwards gets the
    number c as well, and its remove button starts the timer of the first
    row instead. *)
Theorem reset_renumbers (page : JS.Page) (first : JS.Row) (rest : list JS.Row) :
  Spec.numberedApart page -> JS.rows page = first :: rest ->
  let kept := JS.mkDomRow (JS.node first) (JS.courseId first)
                          "" "" "" "-" (Some "#f59e0b") in
  let reset := JS.resetCalculator page in
  (JS.rows reset = [kept] /\ JS.courseCounter reset = 1%Z)
  /\ ((JS.courseId first <= 1)%Z -> Spec.numberedApart reset)
  /\ ((1 < JS.courseId first)%Z ->
      let page' :=
        Nat.iter (Z.to_nat (JS.courseId first - 1)) JS.addCourse reset in
      exists between new,
        JS.rows page' = (kept :: between ++ [new])%list
        /\ JS.courseId new = JS.courseId first
        /\ JS.node new <> JS.node first
        /\ JS.timers (JS.removeCourse (JS.courseId new) page')
           = (JS.timers page' ++ [JS.node first])%list
        /\ ~ Spec.numberedApart page').
Proof.
  intros (Hnodes & Hfresh & Hids & Hcounter) Hrows kept reset.
  assert (Hreset : JS.rows reset = [kept]).
  { unfold reset, JS.resetCalculator. cbn [JS.rows]. rewrite Hrows.
    reflexivity. }
  rewrite Hrows in Hfresh. inversion Hfresh as [| ? ? Hfirst _].
  split; [split; [exact Hreset | reflexivity] |]. split.
  - intros Hone. unfold Spec.numberedApart. rewrite Hreset.
    unfold reset, JS.resetCalculator, kept.
    cbn [JS.nextNode JS.courseCounter map JS.node JS.courseId].
    repeat apply conj.
    + constructor; [intros [] | constructor].
    + constructor; [exact Hfirst | constructor].
    + constructor; [intros [] | constructor].
    + constructor; [exact Hone | constructor].
  - intros Hmany page'.
    destruct (Z.to_nat (JS.courseId first - 1)) as [| n] eqn:Hn; [lia |].
    unfold page'. rewrite Nat.iter_succ.
    destruct (iter_addCourse n reset) as (Hc & Hnext & _ & added & Hadded & Hlen).
    set (before := Nat.iter n JS.addCourse reset) in *.
    rewrite Hreset in Hadded.
    set (new := JS.mkDomRow (JS.nextNode before)
                            (JS.courseCounter before + 1) "" "" "" "-" None).
    assert (Hpage' : JS.rows (JS.addCourse before)
                     = (kept :: added ++ [new])%list).
    { unfold JS.addCourse. cbn [JS.rows]. rewrite Hadded. reflexivity. }
    assert (Hid : JS.courseId new = JS.courseId first).
    { unfold new. cbn [JS.courseId]. rewrite Hc.
      unfold reset, JS.resetCalculator. cbn [JS.courseCounter]. lia. }
    assert (Hnode : JS.node new <> JS.node first).
    { unfold new. cbn [JS.node]. rewrite Hnext.
      unfold reset, JS.resetCalculator. cbn [JS.nextNode]. lia. }
    exists added, new. repeat apply conj.
    + exact Hpage'.
    + exact Hid.
    + exact Hnode.
    + unfold JS.removeCourse, JS.querySelector. rewrite Hpage', Hid.
      cbn [find kept JS.courseId]. rewrite Z.eqb_refl. reflexivity.
    + intros (_ & _ & Hdup & _). rewrite Hpage' in Hdup.
      cbn [map] in Hdup. inversion Hdup as [| ? ? Hnotin _].
      apply Hnotin. rewrite map_app, in_app_iff. right. left.
      cbn [kept JS.courseId]. exact Hid.
Qed.

Lemma reset_renumbers_witness :
  let page := JS.handle (JS.removeCourse 1 (JS.addCourse Spec.firstPage))
                        (JS.TimerFires 0) in
  let page' := JS.addCourse (JS.resetCalculator page) in
  map JS.courseId (JS.rows page') = [2; 2]%Z
  /\ exists between new,
       JS.rows page'
       = (JS.mkDomRow 1 2 "" "" "" "-" (Some "#f59e0b") :: between ++ [new])%list
       /\ JS.courseId new = 2%Z
       /\ JS.timers (JS.removeCourse (JS.courseId new) page')
          = (JS.timers page' ++ [1%nat])%list.
Proof.
  intros page page'. split; [reflexivity |].
  assert (Hpage : Spec.numberedApart page).
  { unfold page. apply handle_numberedApart; [discriminate |].
    destruct (removeCourse_rows 1 (JS.addCourse Spec.firstPage))
      as (Hrows & Hcounter & Hnext).
    unfold Spec.numberedApart. rewrite Hrows, Hcounter, Hnext.
    apply addCourse_numberedApart, firstPage_numberedApart. }
  destruct (reset_renumbers page (JS.mkDomRow 1 2 "" "" "" "-" None) []
              Hpage eq_refl) as (_ & _ & Hcollide).
  destruct (Hcollide ltac:(reflexivity))
    as (between & new & Hrows & Hid & _ & Htimers & _).
  exists between, new. cbn in Hid. repeat split; assumption.
Defined.
